(** * Charlottesville housing dashboard: the data-transformation core of [app.py]

    A shallow embedding of the pandas pipeline of [src/app.py]: the sales
    normaliser, the per-year aggregation, the affordability figures, the
    ownership statistics and owner ranking, and the property search.

    Conventions of the embedding.
    - A DataFrame is a [list] of row records, in row order.
    - A cell that pandas holds as NaN / None / NaT is [None].
    - Money amounts and years are [Z]; values that pandas computes in floating
      point (medians, means, percentages) are exact rationals [Q], kept in
      lowest terms, inside [num], which adds NaN and the two infinities.
    - A Python exception is the [Raise] branch of [result].
    - Strings are [string]s of ASCII characters; [upper] and [strip] act on
      the ASCII range.
    - Library routines whose exact algorithm the program does not fix (the
      sorting routine behind [sort_values], the date parser behind
      [pd.to_datetime]) are interfaces: a class or a section variable, with a
      concrete instance given for running the definitions. *)

From Stdlib Require Import ZArith QArith List Bool Lia.
From Stdlib Require Import Strings.String Strings.Ascii Numbers.DecimalString.
From Stdlib Require Import Sorting.Permutation Sorting.Sorted.
Import ListNotations.

Local Open Scope string_scope.
Local Open Scope Z_scope.

(* ===================================================================== *)
(** ** Python values: exceptions and numbers *)
(* ===================================================================== *)

Inductive exn : Type :=
| IndexError        (* positional indexer out of bounds *)
| ZeroDivisionError
| re_error          (* re.error raised by re.compile *)
| RecursionError.   (* the interpreter's recursion limit is reached *)

Inductive result (A : Type) : Type :=
| Ok (a : A)
| Raise (e : exn).
Arguments Ok {A} a.
Arguments Raise {A} e.

Definition bind {A B} (m : result A) (k : A -> result B) : result B :=
  match m with
  | Ok a => k a
  | Raise e => Raise e
  end.

Notation "x <- m ;; k" := (bind m (fun x => k))
  (at level 61, m at next level, right associativity).

(** Floating-point values, idealised: a finite value is an exact rational. *)
Inductive num : Type :=
| Fin (q : Q)
| PInf
| NInf
| NaN.

Definition fin (q : Q) : num := Fin (Qred q).
Definition of_Z (z : Z) : num := Fin (inject_Z z).

Definition num_sub (a b : num) : num :=
  match a, b with
  | Fin x, Fin y => fin (x - y)
  | NaN, _ | _, NaN => NaN
  | PInf, PInf | NInf, NInf => NaN
  | PInf, _ | _, NInf => PInf
  | NInf, _ | _, PInf => NInf
  end.

Definition Qsign (q : Q) : comparison := (Qnum q ?= 0)%Z.

Definition num_mul (a b : num) : num :=
  match a, b with
  | Fin x, Fin y => fin (x * y)
  | NaN, _ | _, NaN => NaN
  | Fin x, PInf | PInf, Fin x =>
      match Qsign x with Gt => PInf | Lt => NInf | Eq => NaN end
  | Fin x, NInf | NInf, Fin x =>
      match Qsign x with Gt => NInf | Lt => PInf | Eq => NaN end
  | PInf, PInf | NInf, NInf => PInf
  | PInf, NInf | NInf, PInf => NInf
  end.

(** numpy division: a zero divisor gives an infinity or NaN, not an exception. *)
Definition num_div (a b : num) : num :=
  match a, b with
  | NaN, _ | _, NaN => NaN
  | Fin x, Fin y =>
      match Qsign y with
      | Eq => match Qsign x with Gt => PInf | Lt => NInf | Eq => NaN end
      | _ => fin (x / y)
      end
  | Fin _, _ => Fin 0
  | PInf, Fin y => match Qsign y with Lt => NInf | _ => PInf end
  | NInf, Fin y => match Qsign y with Lt => PInf | _ => NInf end
  | _, _ => NaN
  end.

(** Python [a / b] on two [int]s: raises on a zero divisor. *)
Definition py_truediv (a b : Z) : result Q :=
  if b =? 0 then Raise ZeroDivisionError
  else Ok (Qred (inject_Z a / inject_Z b)).

(** [df.iloc[0]]: the first row, IndexError on an empty frame. *)
Definition iloc0 {A} (df : list A) : result A :=
  match df with
  | [] => Raise IndexError
  | x :: _ => Ok x
  end.

(** [df.iloc[-1]]: the last row, IndexError on an empty frame. *)
Fixpoint iloc_last {A} (df : list A) : result A :=
  match df with
  | [] => Raise IndexError
  | [x] => Ok x
  | _ :: tl => iloc_last tl
  end.

(** [len(df[mask])] *)
Definition count {A} (p : A -> bool) (df : list A) : Z :=
  Z.of_nat (List.length (filter p df)).

(* ===================================================================== *)
(** ** Python strings: [str.upper], [str.strip] *)
(* ===================================================================== *)

Definition is_lower (c : ascii) : bool :=
  let n := nat_of_ascii c in (97 <=? n)%nat && (n <=? 122)%nat.

Definition is_upper (c : ascii) : bool :=
  let n := nat_of_ascii c in (65 <=? n)%nat && (n <=? 90)%nat.

Definition upper_char (c : ascii) : ascii :=
  if is_lower c then ascii_of_nat (nat_of_ascii c - 32) else c.

Definition lower_char (c : ascii) : ascii :=
  if is_upper c then ascii_of_nat (nat_of_ascii c + 32) else c.

Fixpoint upper (s : string) : string :=
  match s with
  | EmptyString => EmptyString
  | String c s' => String (upper_char c) (upper s')
  end.

(** The characters [str.strip()] removes: tab, LF, VT, FF, CR, the four
    separators 0x1c-0x1f and the space. *)
Definition is_space (c : ascii) : bool :=
  let n := nat_of_ascii c in
  ((9 <=? n)%nat && (n <=? 13)%nat) || ((28 <=? n)%nat && (n <=? 32)%nat).

Fixpoint lstrip (s : string) : string :=
  match s with
  | EmptyString => EmptyString
  | String c s' => if is_space c then lstrip s' else s
  end.

Fixpoint rstrip (s : string) : string :=
  match s with
  | EmptyString => EmptyString
  | String c s' =>
      match rstrip s' with
      | EmptyString => if is_space c then EmptyString else String c EmptyString
      | t => String c t
      end
  end.

Definition strip (s : string) : string := rstrip (lstrip s).

(** A cell of a column, and [str(x)] of it as [astype(str)] does it.  A
    column of whole numbers without missing cells is int64 and its cells are
    [CInt]; as soon as a number is missing pandas reads the column as float64:
    its cells are then [CFloat z], the float of the whole number [z], printed
    with a trailing ".0" (for [z] below 10^16 in absolute value), and [CNaN],
    printed "nan". *)
Inductive cell : Type :=
| CStr (s : string)
| CInt (z : Z)
| CFloat (z : Z)
| CNaN.

Definition astype_str (c : cell) : string :=
  match c with
  | CStr s => s
  | CInt z => NilZero.string_of_int (Z.to_int z)
  | CFloat z => NilZero.string_of_int (Z.to_int z) ++ ".0"
  | CNaN => "nan"
  end.

(* ===================================================================== *)
(** ** DataFrame operations: sorting and grouping *)
(* ===================================================================== *)

(** The sorting routine behind [sort_values]: pandas hands the key column to
    numpy's [argsort] (default kind, quicksort), which promises an ascending
    permutation and nothing about ties. *)
Class Sorter : Type := {
  argsort : forall {A : Type}, (A -> Z) -> list A -> list A;
  argsort_perm : forall A (key : A -> Z) l, Permutation l (argsort key l);
  argsort_sorted : forall A (key : A -> Z) l,
      StronglySorted (fun a b => key a <= key b) (argsort key l)
}.

(** [df.sort_values(by, ascending=...)].  For a descending sort pandas
    reverses the frame, sorts ascending and reverses the result. *)
Definition sort_values `{Sorter} {A} (by_ : A -> Z) (ascending : bool)
    (df : list A) : list A :=
  if ascending then argsort by_ df
  else rev (argsort by_ (rev df)).

(** Insertion sort, the routine numpy's quicksort runs on short arrays.  It
    keeps rows with equal keys in their incoming order. *)
Fixpoint insert_by {A} (key : A -> Z) (x : A) (l : list A) : list A :=
  match l with
  | [] => [x]
  | y :: l' => if key x <=? key y then x :: l else y :: insert_by key x l'
  end.

Definition insertion_sort {A} (key : A -> Z) (l : list A) : list A :=
  fold_right (insert_by key) [] l.

(** A total order on group keys, as a three-way comparison.  [groupby] sorts
    the group keys with it (pandas' default [sort=True]). *)
Class KeyOrder (K : Type) : Type := {
  kcmp : K -> K -> comparison;
  kcmp_eq : forall a b, kcmp a b = Eq <-> a = b;
  kcmp_antisym : forall a b, kcmp b a = CompOpp (kcmp a b);
  kcmp_trans : forall a b c, kcmp a b = Lt -> kcmp b c = Lt -> kcmp a c = Lt
}.

Definition keqb {K} `{KeyOrder K} (a b : K) : bool :=
  match kcmp a b with Eq => true | _ => false end.

(** The strict order of the keys. *)
Definition klt {K} `{KeyOrder K} (a b : K) : Prop := kcmp a b = Lt.

(** Years are ordered as integers. *)
#[export] Instance Z_KeyOrder : KeyOrder Z := {|
  kcmp := Z.compare;
  kcmp_eq := Z.compare_eq_iff;
  kcmp_antisym := fun a b => Z.compare_antisym a b;
  kcmp_trans := Z.lt_trans
|}.

Section GroupBy.
Context {K : Type} `{KeyOrder K} {A : Type}.
Variable key : A -> option K.

(** Insert a key into the sorted list of distinct keys seen so far. *)
Fixpoint insert_key (k : K) (ks : list K) : list K :=
  match ks with
  | [] => [k]
  | k' :: ks' =>
      match kcmp k k' with
      | Lt => k :: ks
      | Eq => ks
      | Gt => k' :: insert_key k ks'
      end
  end.

(** The distinct keys of the frame, ascending; rows whose key is missing
    belong to no group (pandas' default [dropna=True]). *)
Fixpoint group_keys (df : list A) : list K :=
  match df with
  | [] => []
  | r :: df' =>
      match key r with
      | Some k => insert_key k (group_keys df')
      | None => group_keys df'
      end
  end.

Definition has_key (k : K) (r : A) : bool :=
  match key r with
  | Some k' => keqb k' k
  | None => false
  end.

(** [df.groupby(key)]: one group per distinct key, keys ascending, the rows
    of a group in frame order. *)
Definition groupby (df : list A) : list (K * list A) :=
  map (fun k => (k, filter (has_key k) df)) (group_keys df).
End GroupBy.

(* ===================================================================== *)
(** ** Series reductions: sum, median, mean, quantile *)
(* ===================================================================== *)

Definition sum (xs : list Z) : Z := fold_right Z.add 0 xs.

Definition sorted_values (xs : list Z) : list Z := insertion_sort (fun x => x) xs.

(** [Series.median()]: NaN on an empty series, the middle value on an odd
    count, the mean of the two middle values on an even count. *)
Definition median (xs : list Z) : num :=
  let v := sorted_values xs in
  let n := List.length v in
  match n with
  | O => NaN
  | _ =>
      if Nat.even n
      then fin ((inject_Z (nth (n / 2 - 1) v 0) + inject_Z (nth (n / 2) v 0)) / 2)
      else of_Z (nth (n / 2) v 0)
  end.

(** [Series.mean()] *)
Definition mean (xs : list Z) : num :=
  match xs with
  | [] => NaN
  | _ => fin (inject_Z (sum xs) / inject_Z (Z.of_nat (List.length xs)))
  end.

(** [Series.quantile(0.75)], linear interpolation between the two order
    statistics around position 0.75 * (n - 1). *)
Definition quantile_75 (xs : list Z) : num :=
  let v := sorted_values xs in
  let n := List.length v in
  match n with
  | O => NaN
  | _ =>
      let h := 3 * Z.of_nat (n - 1) in
      let lo := Z.to_nat (h / 4) in
      let hi := Nat.min (S lo) (n - 1) in
      let frac := (h mod 4) # 4 in
      let a := nth lo v 0 in
      let b := nth hi v 0 in
      fin (inject_Z a + frac * (inject_Z b - inject_Z a))
  end.

(* ===================================================================== *)
(** ** Sales Normalizer: [process_sales_data] *)
(* ===================================================================== *)

(** A row of Real_Estate_Sales.csv. *)
Record SaleRow : Type := {
  raw_ParcelNumber : string;
  raw_SaleDate : option string;
  raw_SaleAmount : Z
}.

Record Timestamp : Type := {
  year : Z; month : Z; day : Z;
  hour : Z; minute : Z; second : Z
}.

(** A row of [sales_processed]. *)
Record SaleRecord : Type := {
  sale_ParcelNumber : string;
  SaleDate : Timestamp;
  SaleAmount : Z;
  Year : Z;
  Month : Z
}.

Section SalesNormalizer.
(** [strptime fmt] for the format '%Y/%m/%d %H:%M:%S+00': the parsed
    timestamp, or [None] where the library would raise. *)
Variable strptime : string -> option Timestamp.

(** [pd.to_datetime(col, format=..., errors='coerce')] on one cell: a
    missing cell or a string that does not parse becomes NaT. *)
Definition to_datetime (c : option string) : option Timestamp :=
  match c with
  | Some s => strptime s
  | None => None
  end.

(** [sales.dropna(subset=['SaleDate'])] *)
Fixpoint dropna_SaleDate (df : list (SaleRow * option Timestamp))
  : list (SaleRow * Timestamp) :=
  match df with
  | [] => []
  | (r, Some t) :: df' => (r, t) :: dropna_SaleDate df'
  | (_, None) :: df' => dropna_SaleDate df'
  end.

Definition process_sales_data (sales_df : list SaleRow) : list SaleRecord :=
  let sales := map (fun r => (r, to_datetime (raw_SaleDate r))) sales_df in
  let sales := dropna_SaleDate sales in
  let sales :=
    map (fun rt : SaleRow * Timestamp =>
           let (r, t) := rt in
           {| sale_ParcelNumber := raw_ParcelNumber r;
              SaleDate := t;
              SaleAmount := raw_SaleAmount r;
              Year := year t;
              Month := month t |}) sales in
  filter (fun s => SaleAmount s >? 10000) sales.
End SalesNormalizer.

(** A parser for the strings that have exactly the zero-padded shape
    [YYYY/MM/DD HH:MM:SS+00] and name a real calendar date.  It is one
    possible [strptime]; the results below hold for every parser. *)
Definition digit (c : ascii) : option Z :=
  let n := nat_of_ascii c in
  if (48 <=? n)%nat && (n <=? 57)%nat then Some (Z.of_nat (n - 48)) else None.

Fixpoint take_digits (n : nat) (acc : Z) (s : string) : option (Z * string) :=
  match n with
  | O => Some (acc, s)
  | S n' =>
      match s with
      | String c s' =>
          match digit c with
          | Some d => take_digits n' (10 * acc + d) s'
          | None => None
          end
      | EmptyString => None
      end
  end.

Definition expect (c : ascii) (s : string) : option string :=
  match s with
  | String c' s' => if Ascii.eqb c c' then Some s' else None
  | EmptyString => None
  end.

Definition obind {A B} (m : option A) (k : A -> option B) : option B :=
  match m with Some a => k a | None => None end.

Definition is_leap (y : Z) : bool :=
  ((y mod 4 =? 0) && negb (y mod 100 =? 0)) || (y mod 400 =? 0).

Definition days_in_month (y m : Z) : Z :=
  if m =? 2 then (if is_leap y then 29 else 28)
  else if (m =? 4) || (m =? 6) || (m =? 9) || (m =? 11) then 30
  else 31.

Definition strptime_fixed (s : string) : option Timestamp :=
  obind (take_digits 4 0 s) (fun '(y, s) =>
  obind (expect "/" s) (fun s =>
  obind (take_digits 2 0 s) (fun '(mo, s) =>
  obind (expect "/" s) (fun s =>
  obind (take_digits 2 0 s) (fun '(d, s) =>
  obind (expect " " s) (fun s =>
  obind (take_digits 2 0 s) (fun '(h, s) =>
  obind (expect ":" s) (fun s =>
  obind (take_digits 2 0 s) (fun '(mi, s) =>
  obind (expect ":" s) (fun s =>
  obind (take_digits 2 0 s) (fun '(se, s) =>
  if String.eqb s "+00"
     && (1 <=? mo) && (mo <=? 12) && (1 <=? d) && (d <=? days_in_month y mo)
     && (h <=? 23) && (mi <=? 59) && (se <=? 59)
  then Some {| year := y; month := mo; day := d;
               hour := h; minute := mi; second := se |}
  else None))))))))))).

(* ===================================================================== *)
(** ** Headline affordability metrics (lines 135-165) *)
(* ===================================================================== *)

Definition median_income : Z := 69829.
Definition affordable_home_price : Z := median_income * 3.

Definition Last_Year_median_price (sales_processed : list SaleRecord) : num :=
  median (map SaleAmount (filter (fun s => Year s >=? 2024) sales_processed)).

Definition affordability_gap (sales_processed : list SaleRecord) : num :=
  num_sub (Last_Year_median_price sales_processed) (of_Z affordable_home_price).

Definition homes_affordable (sales_processed : list SaleRecord) : Z :=
  count (fun s => (Year s >=? 2020) && (SaleAmount s <=? affordable_home_price))
        sales_processed.

Definition total_recent_sales (sales_processed : list SaleRecord) : Z :=
  count (fun s => Year s >=? 2020) sales_processed.

Definition affordable_pct (sales_processed : list SaleRecord) : result num :=
  if total_recent_sales sales_processed >? 0
  then q <- py_truediv (homes_affordable sales_processed)
                       (total_recent_sales sales_processed) ;;
       Ok (fin (q * 100))
  else Ok (of_Z 0).

Definition income_needed (sales_processed : list SaleRecord) : num :=
  num_div (Last_Year_median_price sales_processed) (of_Z 3).

(* ===================================================================== *)
(** ** Time-Series Aggregator: [yearly_stats] (lines 192-227) *)
(* ===================================================================== *)

Record YearlyStat : Type := {
  ys_Year : Z;
  MedianPrice : num;
  AveragePrice : num;
  Sales : Z
}.

Definition by_Year (s : SaleRecord) : option Z := Some (Year s).

(** Lines 192-194: group by year, aggregate, keep the years from 2000 on. *)
Definition yearly_stats (sales_processed : list SaleRecord)
  : list YearlyStat :=
  let agg :=
    map (fun g : Z * list SaleRecord =>
           let amounts := map SaleAmount (snd g) in
           {| ys_Year := fst g;
              MedianPrice := median amounts;
              AveragePrice := mean amounts;
              Sales := Z.of_nat (List.length amounts) |})
        (groupby by_Year sales_processed) in
  filter (fun r => ys_Year r >=? 2000) agg.

(** Line 213: the 75th percentile of each year. *)
Definition percentile_75 (sales_processed : list SaleRecord)
  : list (Z * num) :=
  map (fun g : Z * list SaleRecord =>
         (fst g, quantile_75 (map SaleAmount (snd g))))
      (groupby by_Year sales_processed).

(** [left.merge(right, on='Year', how='left')]: every left row once per
    matching right row, and once with NaN when there is none. *)
Definition merge_left (left : list YearlyStat) (right : list (Z * num))
  : list (YearlyStat * num) :=
  flat_map (fun l =>
              match filter (fun r => fst r =? ys_Year l) right with
              | [] => [(l, NaN)]
              | ms => map (fun r => (l, snd r)) ms
              end) left.

(** The income table of lines 218-224: a Python dict whose entry for 2024 is
    [None]. *)
Definition income_by_year : list (Z * option Z) :=
  [ (2000, Some 32903); (2001, Some 33223); (2002, Some 32785);
    (2003, Some 31363); (2004, Some 31246); (2005, Some 33041);
    (2006, Some 35147); (2007, Some 37195); (2008, Some 42948);
    (2009, Some 39030); (2010, Some 42240); (2011, Some 43980);
    (2012, Some 44535); (2013, Some 44601); (2014, Some 47218);
    (2015, Some 49775); (2016, Some 50727); (2017, Some 54739);
    (2018, Some 58933); (2019, Some 59471); (2020, Some 59598);
    (2021, Some 63470); (2022, Some 67177); (2023, Some 69829);
    (2024, None) ].

Fixpoint dict_get {V} (d : list (Z * V)) (k : Z) : option V :=
  match d with
  | [] => None
  | (k', v) :: d' => if k' =? k then Some v else dict_get d' k
  end.

(** [Series.map(dict)] on one value: a key that is not in the dict, and a key
    mapped to [None], both give NaN. *)
Definition series_map (d : list (Z * option Z)) (k : Z) : num :=
  match dict_get d k with
  | Some (Some v) => of_Z v
  | _ => NaN
  end.

Record YearlyRow : Type := {
  stat : YearlyStat;
  Percentile75 : num;
  MedianIncome : num;
  AffordablePrice : num
}.

(** Lines 215-227: the merged frame with the two income columns. *)
Definition yearly_stats_income (sales_processed : list SaleRecord)
  : list YearlyRow :=
  map (fun sp : YearlyStat * num =>
         let inc := series_map income_by_year (ys_Year (fst sp)) in
         {| stat := fst sp;
            Percentile75 := snd sp;
            MedianIncome := inc;
            AffordablePrice := num_mul inc (of_Z 3) |})
      (merge_left (yearly_stats sales_processed) (percentile_75 sales_processed)).

(* ===================================================================== *)
(** ** Ownership Aggregator (lines 782-840) *)
(* ===================================================================== *)

(** A row of Parcel_Boundary_Area_Details.csv. *)
Record ParcelRecord : Type := {
  OwnerName : option string;
  OwnerCityState : option string;
  LotSquareFeet : option Z;
  Assessment : option Z
}.

(** A row of [parcel_details] after the cleaning of lines 785-788. *)
Record ParcelClean : Type := {
  parcel : ParcelRecord;
  OwnerCityState_Clean : string;
  IsLocal : bool
}.

Definition classify (r : ParcelRecord) (s : string) : ParcelClean :=
  let clean := upper (strip s) in
  {| parcel := r;
     OwnerCityState_Clean := clean;
     IsLocal := String.eqb clean "CHARLOTTESVILLE VA" |}.

(** [dropna(subset=['OwnerCityState'])], then the two derived columns. *)
Fixpoint parcel_details (raw : list ParcelRecord) : list ParcelClean :=
  match raw with
  | [] => []
  | r :: raw' =>
      match OwnerCityState r with
      | Some s => classify r s :: parcel_details raw'
      | None => parcel_details raw'
      end
  end.

(** [Series.sum()] skips missing cells.  The sum is taken in [Z]: it is the
    sum pandas computes as long as the running sums stay within the range in
    which both int64 and float64 arithmetic are exact (below 2^53 in absolute
    value); the results that depend on it assume that range. *)
Definition sum_skipna (xs : list (option Z)) : Z :=
  sum (map (fun x => match x with Some v => v | None => 0 end) xs).

Definition lot (p : ParcelClean) : option Z := LotSquareFeet (parcel p).

Definition pct_of (part whole : Z) : num :=
  if whole >? 0
  then num_mul (num_div (of_Z part) (of_Z whole)) (of_Z 100)
  else of_Z 0.

Record OwnershipStats : Type := {
  total_parcels : Z;
  local_parcels : Z;
  non_local_parcels : Z;
  local_pct : num;
  total_land_area : Z;
  local_land_area : Z;
  non_local_land_area : Z;
  local_land_pct : num
}.

Definition ownership_stats (raw : list ParcelRecord) : OwnershipStats :=
  let pd := parcel_details raw in
  let total := Z.of_nat (List.length pd) in
  let local := count IsLocal pd in
  let land := sum_skipna (map lot pd) in
  let local_land := sum_skipna (map lot (filter IsLocal pd)) in
  {| total_parcels := total;
     local_parcels := local;
     non_local_parcels := total - local;
     local_pct := pct_of local total;
     total_land_area := land;
     local_land_area := local_land;
     non_local_land_area :=
       sum_skipna (map lot (filter (fun p => negb (IsLocal p)) pd));
     local_land_pct := pct_of local_land land |}.

Record OwnerAggregate : Type := {
  oa_OwnerName : string;
  TotalProperties : Z;
  TotalSquareFeet : Z;
  TotalAssessment : Z
}.

Definition by_OwnerName (p : ParcelClean) : option string := OwnerName (parcel p).

(** Lines 818-837: one aggregate per owner name.  [has_Assessment] says
    whether the parcel table has an 'Assessment' column. *)
Definition owner_groups `{KeyOrder string} (has_Assessment : bool)
    (pd : list ParcelClean) : list OwnerAggregate :=
  map (fun g : string * list ParcelClean =>
         {| oa_OwnerName := fst g;
            TotalProperties := Z.of_nat (List.length (snd g));
            TotalSquareFeet := sum_skipna (map lot (snd g));
            TotalAssessment :=
              if has_Assessment
              then sum_skipna (map (fun p => Assessment (parcel p)) (snd g))
              else 0 |})
      (groupby by_OwnerName pd).

(** Line 840: the ranking. *)
Definition top_owners `{Sorter} `{KeyOrder string} (has_Assessment : bool)
    (raw : list ParcelRecord) : list OwnerAggregate :=
  sort_values TotalProperties false
              (owner_groups has_Assessment (parcel_details raw)).

Definition TotalAcres (o : OwnerAggregate) : num :=
  num_div (of_Z (TotalSquareFeet o)) (of_Z 43560).

(* ===================================================================== *)
(** ** Regular expressions: the fragment of Python's [re] modelled here *)
(* ===================================================================== *)

(** Literals, the dot, groups and alternation.  Every other special
    character (quantifiers, classes, escapes, anchors, the [(?...)]
    extensions) is outside the fragment, and so are groups nested deeper than
    [max_nesting]: [sre_parse] recurses on every open group and CPython stops
    it with RecursionError at a depth that depends on the call stack. *)
Inductive regex : Type :=
| Eps
| Lit (c : ascii)
| AnyChar
| Cat (r1 r2 : regex)
| Alt (r1 r2 : regex).

(** The characters [sre_parse] treats specially outside a character class. *)
Definition is_special (c : ascii) : bool :=
  existsb (Ascii.eqb c)
    ["."; "\"; "["; "{"; "("; ")"; "*"; "+"; "?"; "^"; "$"; "|"]%char.

Definition plain (s : string) : bool :=
  forallb (fun c => negb (is_special c)) (list_ascii_of_string s).

Definition max_nesting : nat := 100.

Inductive parsed : Type :=
| Pattern (r : regex)
| SyntaxError          (* re.compile raises re.error *)
| Beyond.              (* a construct outside the fragment *)

(** An open group: the alternatives closed so far and the sequence being
    read. *)
Record frame : Type := { alts : option regex; cur : regex }.

Definition close (f : frame) : regex :=
  match alts f with
  | Some a => Alt a (cur f)
  | None => cur f
  end.

Definition push_atom (f : frame) (a : regex) : frame :=
  {| alts := alts f; cur := Cat (cur f) a |}.

Definition empty_frame : frame := {| alts := None; cur := Eps |}.

(** The parser reads the pattern left to right; [stack] holds the enclosing
    open groups, innermost first. *)
Fixpoint parse_from (s : string) (f : frame) (stack : list frame) : parsed :=
  match s with
  | EmptyString =>
      match stack with
      | [] => Pattern (close f)
      | _ :: _ => SyntaxError            (* missing ), unterminated subpattern *)
      end
  | String c s' =>
      if Ascii.eqb c "("%char then
        match s' with
        | String "?"%char _ => Beyond
        | _ =>
            if (max_nesting <=? List.length stack)%nat then Beyond
            else parse_from s' empty_frame (f :: stack)
        end
      else if Ascii.eqb c ")"%char then
        match stack with
        | [] => SyntaxError              (* unbalanced parenthesis *)
        | outer :: stack' => parse_from s' (push_atom outer (close f)) stack'
        end
      else if Ascii.eqb c "|"%char then
        parse_from s' {| alts := Some (close f); cur := Eps |} stack
      else if Ascii.eqb c "."%char then
        parse_from s' (push_atom f AnyChar) stack
      else if is_special c then Beyond
      else parse_from s' (push_atom f (Lit c)) stack
  end.

Definition sre_parse (pattern : string) : parsed :=
  parse_from pattern empty_frame [].

(** Equality of two characters under [re.IGNORECASE]. *)
Definition eq_ignorecase (a b : ascii) : bool :=
  Ascii.eqb (lower_char a) (lower_char b).

(** Backtracking match of [r] at the start of [s]; [k] receives what is left
    of the subject. *)
Fixpoint match_here (r : regex) (s : string) (k : string -> bool) : bool :=
  match r with
  | Eps => k s
  | Lit c =>
      match s with
      | String x s' => eq_ignorecase c x && k s'
      | EmptyString => false
      end
  | AnyChar =>
      match s with
      | String x s' => negb (Ascii.eqb x "010"%char) && k s'
      | EmptyString => false
      end
  | Cat r1 r2 => match_here r1 s (fun s' => match_here r2 s' k)
  | Alt r1 r2 => match_here r1 s k || match_here r2 s k
  end.

(** [pattern.search(s) is not None]: a match starting at some position. *)
Fixpoint re_search (r : regex) (s : string) : bool :=
  match_here r s (fun _ => true)
  ||
  match s with
  | String _ s' => re_search r s'
  | EmptyString => false
  end.

(* ===================================================================== *)
(** ** Property Lookup (lines 713-769) *)
(* ===================================================================== *)

(** A row of Real_Estate_All_Assessments.csv. *)
Record AssessmentRecord : Type := {
  ParcelNumber : string;
  TaxYear : Z;
  TotalValue : Z;
  StreetNumber : cell;
  StreetName : cell
}.

Definition FullAddress (r : AssessmentRecord) : string :=
  astype_str (StreetNumber r) ++ " " ++ astype_str (StreetName r).

(** [drop_duplicates()]: the first occurrence of every row, in frame order. *)
Fixpoint drop_duplicates_from (seen : list (string * string))
    (df : list (string * string)) : list (string * string) :=
  match df with
  | [] => []
  | x :: df' =>
      if existsb (fun y => String.eqb (fst x) (fst y) && String.eqb (snd x) (snd y)) seen
      then drop_duplicates_from seen df'
      else x :: drop_duplicates_from (x :: seen) df'
  end.

Definition drop_duplicates := drop_duplicates_from [].

Inductive lookup : Type :=
| NoQuery                (* the text box is empty: nothing is searched *)
| NoMatch                (* no matching row: nothing is shown *)
| Selected (selected_address selected_parcel : string)
           (property_history : list AssessmentRecord).

(** The two figures of the "Change since 2021" metric (lines 761-765). *)
Definition change_since_2021 (property_history : list AssessmentRecord)
  : result (num * num) :=
  latest_assessment <- iloc_last property_history ;;
  let assessment_2021 := filter (fun r => TaxYear r =? 2021) property_history in
  assessment_2021 <- iloc0 assessment_2021 ;;
  let total_change :=
    num_sub (of_Z (TotalValue latest_assessment)) (of_Z (TotalValue assessment_2021)) in
  let pct_change :=
    num_mul (num_div total_change (of_Z (TotalValue assessment_2021))) (of_Z 100) in
  Ok (total_change, pct_change).

Section PropertyLookup.
Context `{Sorter}.

(** What [re.compile(pattern, re.IGNORECASE)] and the search of the compiled
    pattern do on a pattern outside the modelled fragment. *)
Variable re_beyond : string -> result (string -> bool).

(** What [st.selectbox(label, options)] returns. *)
Variable selectbox : list string -> string.

Definition re_compile (pattern : string) : result (string -> bool) :=
  match sre_parse pattern with
  | Pattern r => Ok (re_search r)
  | SyntaxError => Raise re_error
  | Beyond => re_beyond pattern
  end.

(** [col.str.contains(pat, case=False, na=False)]: the pattern is compiled
    as a regular expression once, then searched in every string cell; a
    cell that is not a string counts as no match. *)
Definition str_contains (pat : string) : result (cell -> bool) :=
  search <- re_compile pat ;;
  Ok (fun c => match c with
               | CStr s => search s
               | _ => false
               end).

Definition matching_properties (search_address : string)
    (all_assessments : list AssessmentRecord) : result (list AssessmentRecord) :=
  in_full <- str_contains (upper search_address) ;;
  in_street <- str_contains (upper search_address) ;;
  Ok (filter (fun r => in_full (CStr (FullAddress r)) || in_street (StreetName r))
             all_assessments).

Definition unique_addresses (matching : list AssessmentRecord)
  : list (string * string) :=
  drop_duplicates (map (fun r => (ParcelNumber r, FullAddress r)) matching).

Definition property_history_of (selected_parcel : string)
    (all_assessments : list AssessmentRecord) : list AssessmentRecord :=
  sort_values TaxYear true
    (filter (fun r => String.eqb (ParcelNumber r) selected_parcel) all_assessments).

Definition property_lookup (search_address : string)
    (all_assessments : list AssessmentRecord) : result lookup :=
  if String.eqb search_address EmptyString then Ok NoQuery
  else
    matching <- matching_properties search_address all_assessments ;;
    if (0 <? Z.of_nat (List.length matching)) then
      let ua := unique_addresses matching in
      sel <-
        (if (1 <? Z.of_nat (List.length ua)) then
           let selected_address := selectbox (map snd ua) in
           first <- iloc0 (filter (fun u => String.eqb (snd u) selected_address) ua) ;;
           Ok (selected_address, fst first)
         else
           first <- iloc0 ua ;;
           Ok (snd first, fst first)) ;;
      Ok (Selected (fst sel) (snd sel)
                   (property_history_of (snd sel) all_assessments))
    else Ok NoMatch.
End PropertyLookup.

(** [st.selectbox(label, options)] as Streamlit runs it (lines 727-730, no
    [index] argument): the widget is drawn with its first option preselected
    and the script goes on at once with that option; once the user has picked
    an option the script runs again and the call returns the option picked.
    The program calls it with two options or more. *)
Definition st_selectbox (picked : option string) (options : list string) : string :=
  match picked with
  | Some choice => choice
  | None => hd EmptyString options
  end.

(** Lines 737-769: the panel under the search box.  The history is charted
    and the change since 2021 computed whenever the history is not empty. *)
Definition property_panel `{Sorter} (re_beyond : string -> result (string -> bool))
    (selectbox : list string -> string) (search_address : string)
    (all_assessments : list AssessmentRecord)
  : result (lookup * option (num * num)) :=
  found <- property_lookup re_beyond selectbox search_address all_assessments ;;
  match found with
  | Selected _ _ property_history =>
      if (0 <? Z.of_nat (List.length property_history)) then
        change <- change_since_2021 property_history ;;
        Ok (found, Some change)
      else Ok (found, None)
  | _ => Ok (found, None)
  end.

(* ===================================================================== *)
(** ** Narrative figures of the charts (lines 141-144, 196-199, 229-232,
       385-415, 490, 535-537) *)
(* ===================================================================== *)

(** [x > 0] on a float: false on NaN. *)
Definition num_gtb0 (a : num) : bool :=
  match a with
  | Fin q => match Qsign q with Gt => true | _ => false end
  | PInf => true
  | _ => false
  end.

(** The idiom [((new - old) / old * 100) if old > 0 else 0]. *)
Definition pct_increase (new old : num) : num :=
  if num_gtb0 old
  then num_mul (num_div (num_sub new old) old) (of_Z 100)
  else of_Z 0.

(** Lines 142-144: the change of the headline median; no guard here. *)
Definition recent_prices (sales_processed : list SaleRecord) : num :=
  median (map SaleAmount (filter (fun s => Year s >=? 2024) sales_processed)).

Definition older_prices (sales_processed : list SaleRecord) : num :=
  median (map SaleAmount (filter (fun s => Year s >=? 2020) sales_processed)).

Definition price_increase_pct (sales_processed : list SaleRecord) : num :=
  num_mul (num_div (num_sub (recent_prices sales_processed)
                            (older_prices sales_processed))
                   (older_prices sales_processed))
          (of_Z 100).

(** The idiom [df[df['Year'] == y][col].iloc[0] if len(df[df['Year'] == y]) > 0
    else 0], on a frame with a year column and a value column. *)
Definition value_of_year {R} (year_of : R -> Z) (value_of : R -> num)
    (df : list R) (y : Z) : result num :=
  let selected := filter (fun r => year_of r =? y) df in
  if (0 <? Z.of_nat (List.length selected))
  then r <- iloc0 selected ;; Ok (value_of r)
  else Ok (of_Z 0).

(** Lines 197-199. *)
Definition price_of_year (sales_processed : list SaleRecord) (y : Z) : result num :=
  value_of_year ys_Year MedianPrice (yearly_stats sales_processed) y.

Definition total_increase (sales_processed : list SaleRecord) : result num :=
  price_2000 <- price_of_year sales_processed 2000 ;;
  price_2024 <- price_of_year sales_processed 2024 ;;
  Ok (pct_increase price_2024 price_2000).

(** Lines 230-232, on the frame that carries the income columns. *)
Definition recent_increase (sales_processed : list SaleRecord) : result num :=
  let ys := yearly_stats_income sales_processed in
  price_2020 <-
    value_of_year (fun r => ys_Year (stat r)) (fun r => MedianPrice (stat r)) ys 2020 ;;
  price_2024 <-
    value_of_year (fun r => ys_Year (stat r)) (fun r => MedianPrice (stat r)) ys 2024 ;;
  Ok (pct_increase price_2024 price_2020).

(** Line 490: the number of sales per year, from 2000 on. *)
Definition sales_by_year (sales_processed : list SaleRecord) : list (Z * Z) :=
  map (fun g : Z * list SaleRecord => (fst g, Z.of_nat (List.length (snd g))))
      (groupby by_Year (filter (fun s => Year s >=? 2000) sales_processed)).

(** Lines 535-537. *)
Definition sales_of_year (sales_processed : list SaleRecord) (y : Z) : result num :=
  value_of_year fst (fun r => of_Z (snd r)) (sales_by_year sales_processed) y.

Definition sales_change (sales_processed : list SaleRecord) : result num :=
  sales_2021 <- sales_of_year sales_processed 2021 ;;
  sales_2024 <- sales_of_year sales_processed 2024 ;;
  Ok (pct_increase sales_2024 sales_2021).

(** Lines 385-387: the assessment values per tax year, from 2000 on. *)
Record AssessmentStat : Type := {
  as_Year : Z;
  MedianAssessment : num;
  AverageAssessment : num
}.

Definition by_TaxYear (r : AssessmentRecord) : option Z := Some (TaxYear r).

Definition assessment_stats (all_assessments : list AssessmentRecord)
  : list AssessmentStat :=
  let agg :=
    map (fun g : Z * list AssessmentRecord =>
           let values := map TotalValue (snd g) in
           {| as_Year := fst g;
              MedianAssessment := median values;
              AverageAssessment := mean values |})
        (groupby by_TaxYear all_assessments) in
  filter (fun r => as_Year r >=? 2000) agg.

(** Lines 413-415: the 2021 median is looked up behind a guard, the latest
    one with a bare [iloc[-1]]. *)
Definition assessment_increase (all_assessments : list AssessmentRecord)
  : result num :=
  let st := assessment_stats all_assessments in
  assessment_2021 <- value_of_year as_Year MedianAssessment st 2021 ;;
  latest <- iloc_last st ;;
  Ok (pct_increase (MedianAssessment latest) assessment_2021).

(* ===================================================================== *)
(** ** The owners table and the top-10 charts (lines 848-933) *)
(* ===================================================================== *)

(** pandas' ValueError on [df.columns = names] when the number of names is
    not the number of columns. *)
Inductive ValueError : Type :=
| LengthMismatch (expected new : nat).

Record table : Type := {
  columns : list string;
  rows : list (list cell)
}.

Section OwnersTable.
Context `{Sorter} `{KeyOrder string}.

(** [f"${x:,.0f}"], the formatting of an assessment total. *)
Variable format_dollars : Z -> string.

Definition column_of (o : OwnerAggregate) (name : string) : cell :=
  if String.eqb name "OwnerName" then CStr (oa_OwnerName o)
  else if String.eqb name "TotalProperties" then CInt (TotalProperties o)
  else if String.eqb name "FormattedAssessment"
       then CStr (format_dollars (TotalAssessment o))
  else CNaN.

Definition display_columns (has_Assessment : bool) : list string :=
  (["OwnerName"; "TotalProperties"]
   ++ (if has_Assessment then ["FormattedAssessment"] else []))%list.

(** [df.columns = names] *)
Definition set_columns (df : table) (names : list string) : ValueError + table :=
  if (List.length (columns df) =? List.length names)%nat
  then inr {| columns := names; rows := rows df |}
  else inl (LengthMismatch (List.length (columns df)) (List.length names)).

(** Lines 850-855. *)
Definition display_df (has_Assessment : bool) (raw : list ParcelRecord)
  : ValueError + table :=
  let display_columns := display_columns has_Assessment in
  let selected :=
    {| columns := display_columns;
       rows := map (fun o => map (column_of o) display_columns)
                   (top_owners has_Assessment raw) |} in
  set_columns selected
    (["Owner Name"; "Properties"; "Total Assessment Value"]
     ++ (if (3 <? List.length display_columns)%nat
         then ["Total Assessment Value"] else []))%list.

(** Line 861. *)
Definition top_10_owners (has_Assessment : bool) (raw : list ParcelRecord)
  : list OwnerAggregate :=
  firstn 10 (top_owners has_Assessment raw).

(** Line 914. *)
Definition assessment_data (has_Assessment : bool) (raw : list ParcelRecord)
  : list OwnerAggregate :=
  sort_values TotalAssessment true (top_10_owners has_Assessment raw).
End OwnersTable.

(** Lines 917-921: the colour of bar [i] of [n]. *)
Definition bar_color (i n : Z) : string :=
  if i >=? n - 2 then "#1f77b4" else "lightgray".

(** The bars of the assessment chart, bottom to top, with their colours. *)
Definition assessment_bars (assessment_data : list OwnerAggregate)
  : list (string * OwnerAggregate) :=
  map (fun io : nat * OwnerAggregate =>
         (bar_color (Z.of_nat (fst io)) (Z.of_nat (List.length assessment_data)),
          snd io))
      (combine (seq 0 (List.length assessment_data)) assessment_data).

(* ===================================================================== *)
(** * The spec's wording, as definitions, and worked inputs *)
(* ===================================================================== *)

Section SalesNormalizerSpec.
Variable strptime : string -> option Timestamp.

(** The spec's exclusion rule: the amount is at most 10,000 or the date
    does not parse. *)
Definition excluded (r : SaleRow) : bool :=
  (raw_SaleAmount r <=? 10000)
  || match to_datetime strptime (raw_SaleDate r) with
     | Some _ => false
     | None => true
     end.

(** [s] is the normalized form of the raw row [r]. *)
Definition normalizes (r : SaleRow) (s : SaleRecord) : Prop :=
  sale_ParcelNumber s = raw_ParcelNumber r
  /\ SaleAmount s = raw_SaleAmount r
  /\ to_datetime strptime (raw_SaleDate r) = Some (SaleDate s)
  /\ Year s = year (SaleDate s)
  /\ Month s = month (SaleDate s).
End SalesNormalizerSpec.

(** "An explicit undefined value": NaN, returned without an exception. *)
Definition undefined_value (v : result num) : Prop :=
  match v with
  | Ok NaN => True
  | _ => False
  end.

Definition sale_row (d : string) (a : Z) : SaleRow :=
  {| raw_ParcelNumber := "010001000"; raw_SaleDate := Some d; raw_SaleAmount := a |}.

Definition sale (y : Z) (a : Z) : SaleRecord :=
  {| sale_ParcelNumber := "010001000";
     SaleDate := {| year := y; month := 1; day := 1; hour := 0; minute := 0; second := 0 |};
     SaleAmount := a; Year := y; Month := 1 |}.

Definition assessment (p : string) (y v : Z) (n : Z) (street : string)
  : AssessmentRecord :=
  {| ParcelNumber := p; TaxYear := y; TotalValue := v;
     StreetNumber := CInt n; StreetName := CStr street |}.

Definition parcel_row (owner : string) (city : option string) (sqft : Z) : ParcelRecord :=
  {| OwnerName := Some owner; OwnerCityState := city;
     LotSquareFeet := Some sqft; Assessment := None |}.

(** The owner-city-state cell, read the way the spec words it. *)
Definition has_owner_city (r : ParcelRecord) : bool :=
  match OwnerCityState r with Some _ => true | None => false end.

Definition is_local (r : ParcelRecord) : bool :=
  match OwnerCityState r with
  | Some s => String.eqb (upper (strip s)) "CHARLOTTESVILLE VA"
  | None => false
  end.

Definition is_non_local (r : ParcelRecord) : bool :=
  match OwnerCityState r with
  | Some s => negb (String.eqb (upper (strip s)) "CHARLOTTESVILLE VA")
  | None => false
  end.

(** The order in which owner names are first met in the parcel table. *)
Definition encounter_names (raw : list ParcelRecord) : list string :=
  flat_map (fun p => match by_OwnerName p with Some n => [n] | None => [] end)
           (parcel_details raw).

Fixpoint index_of (x : string) (l : list string) : option nat :=
  match l with
  | [] => None
  | y :: l' => if String.eqb x y then Some O else option_map S (index_of x l')
  end.

Definition precedes (x y : string) (l : list string) : bool :=
  match index_of x l, index_of y l with
  | Some i, Some j => (i <? j)%nat
  | _, _ => false
  end.

(** The spec's tie-break: of two ranked owners with the same property count,
    the one met first in the input is ranked first. *)
Definition ties_in_encounter_order (raw : list ParcelRecord)
    (ranking : list OwnerAggregate) : bool :=
  forallb (fun a =>
    forallb (fun b =>
      implb ((TotalProperties a =? TotalProperties b)
             && precedes (oa_OwnerName a) (oa_OwnerName b) (encounter_names raw))
            (precedes (oa_OwnerName a) (oa_OwnerName b) (map oa_OwnerName ranking)))
      ranking) ranking.

Definition B_then_A : list ParcelRecord :=
  [ parcel_row "B" (Some "CHARLOTTESVILLE VA") 5000;
    parcel_row "A" (Some "CHARLOTTESVILLE VA") 6000 ].

Definition A_then_B : list ParcelRecord :=
  [ parcel_row "A" (Some "CHARLOTTESVILLE VA") 6000;
    parcel_row "B" (Some "CHARLOTTESVILLE VA") 5000 ].

Fixpoint lower (s : string) : string :=
  match s with
  | EmptyString => EmptyString
  | String c s' => String (lower_char c) (lower s')
  end.

(** The spec's matching rule: the query, compared without regard to case, is
    a substring of the text. *)
Definition substring_ci (query text : string) : Prop :=
  exists before after, lower text = before ++ lower query ++ after.

(** The same rule as a test. *)
Fixpoint prefix_ci (query text : string) : bool :=
  match query, text with
  | EmptyString, _ => true
  | String c query', String x text' =>
      Ascii.eqb (lower_char c) (lower_char x) && prefix_ci query' text'
  | String _ _, EmptyString => false
  end.

Fixpoint contains_ci (query text : string) : bool :=
  prefix_ci query text
  ||
  match text with
  | String _ text' => contains_ci query text'
  | EmptyString => false
  end.

Definition cell_contains_ci (query : string) (c : cell) : bool :=
  match c with
  | CStr s => contains_ci query s
  | _ => false
  end.

(** A record matches a literal query on its full address or on its street
    name. *)
Definition matches_literally (query : string) (r : AssessmentRecord) : bool :=
  contains_ci query (FullAddress r) || cell_contains_ci query (StreetName r).

(** The pattern a text without special characters compiles to: its
    characters, one after the other. *)
Fixpoint literal_from (s : string) (acc : regex) : regex :=
  match s with
  | EmptyString => acc
  | String c s' => literal_from s' (Cat acc (Lit c))
  end.

(** Matching the characters of [p] one by one. *)
Fixpoint match_chars (p text : string) (k : string -> bool) : bool :=
  match p with
  | EmptyString => k text
  | String c p' =>
      match text with
      | String x text' => eq_ignorecase c x && match_chars p' text' k
      | EmptyString => false
      end
  end.

Definition pair_eqb (x y : string * string) : bool :=
  String.eqb (fst x) (fst y) && String.eqb (snd x) (snd y).

Definition three_addresses : list AssessmentRecord :=
  [ assessment "280113000" 2024 612000 123 "MAIN ST";
    assessment "280114100" 2024 548000 45 "MAIN ST";
    assessment "330127000" 2024 455000 7 "OAK AVE" ].

Definition assessments_db : list AssessmentRecord :=
  [ assessment "280113000" 2023 612000 123 "MAIN ST";
    assessment "280113000" 2021 540000 123 "MAIN ST";
    assessment "280113000" 2022 575000 123 "MAIN ST";
    assessment "280114100" 2022 510000 45 "MAIN ST";
    assessment "280114100" 2023 548000 45 "MAIN ST";
    assessment "330127000" 2023 455000 7 "OAK AVE";
    assessment "330127000" 2022 410000 7 "OAK AVE" ].

Definition no_extension (pattern : string) : result (string -> bool) :=
  Raise re_error.

(** The spec's wording of the many-match case: when the matching rows carry
    two or more distinct addresses and the user has picked none, no history
    is returned. *)
Definition awaits_selection (picked : option string)
    (matching : list AssessmentRecord) (found : result lookup) : Prop :=
  (exists r1 r2, In r1 matching /\ In r2 matching
                 /\ FullAddress r1 <> FullAddress r2) ->
  picked = None ->
  forall a p h, found <> Ok (Selected a p h).

Definition first_option (options : list string) : string := hd EmptyString options.
Definition second_option (options : list string) : string := nth 1 options EmptyString.

Definition row_2023 : YearlyRow :=
  {| stat := {| ys_Year := 2023; MedianPrice := Fin 300000;
                AveragePrice := Fin 300000; Sales := 1 |};
     Percentile75 := Fin 300000;
     MedianIncome := Fin 69829;
     AffordablePrice := Fin 209487 |}.

(** The row [yearly_stats] builds for year [y]. *)
Definition yearly_row (sales_processed : list SaleRecord) (y : Z) : YearlyStat :=
  let amounts := map SaleAmount (filter (fun s => Year s =? y) sales_processed) in
  {| ys_Year := y;
     MedianPrice := median amounts;
     AveragePrice := mean amounts;
     Sales := Z.of_nat (List.length amounts) |}.

Definition keyed {K A} (key : A -> option K) (r : A) : bool :=
  match key r with Some _ => true | None => false end.




Definition blank (w : string) : bool := forallb is_space (list_ascii_of_string w).

(** The characters of the modelled fragment. *)
Definition fragment_char (c : ascii) : bool :=
  negb (is_special c)
  || existsb (Ascii.eqb c) ["."; "|"; "("; ")"]%char.

Definition in_fragment (s : string) : bool :=
  forallb fragment_char (list_ascii_of_string s).

(** Reading [s] with [depth] groups open never opens a group beyond
    [limit] open groups (what follows an unbalanced closing parenthesis is
    not read). *)
Fixpoint nested_within (limit : nat) (s : string) (depth : nat) : bool :=
  match s with
  | EmptyString => true
  | String c s' =>
      if Ascii.eqb c "("%char
      then (depth <? limit)%nat && nested_within limit s' (S depth)
      else if Ascii.eqb c ")"%char then
        match depth with
        | O => true
        | S d => nested_within limit s' d
        end
      else nested_within limit s' depth
  end.

(** The parentheses of [s] are balanced, [depth] groups being open. *)
Fixpoint balanced (s : string) (depth : nat) : bool :=
  match s with
  | EmptyString => (depth =? 0)%nat
  | String c s' =>
      if Ascii.eqb c "("%char then balanced s' (S depth)
      else if Ascii.eqb c ")"%char then
        match depth with
        | O => false
        | S d => balanced s' d
        end
      else balanced s' depth
  end.

(** Eleven owners; owner A has two parcels. *)
Definition owner_parcel (owner : string) (sqft value : Z) : ParcelRecord :=
  {| OwnerName := Some owner; OwnerCityState := Some "CHARLOTTESVILLE VA";
     LotSquareFeet := Some sqft; Assessment := Some value |}.

Definition eleven_owners : list ParcelRecord :=
  [ owner_parcel "K" 4000 310000; owner_parcel "A" 5000 420000;
    owner_parcel "B" 6000 150000; owner_parcel "C" 7000 990000;
    owner_parcel "D" 3000 275000; owner_parcel "E" 8000 640000;
    owner_parcel "A" 2500 380000; owner_parcel "F" 4500 505000;
    owner_parcel "G" 5200 215000; owner_parcel "H" 6100 730000;
    owner_parcel "I" 3900 198000; owner_parcel "J" 7700 860000 ].

Definition owner_total (owner : string) (n sqft value : Z) : OwnerAggregate :=
  {| oa_OwnerName := owner; TotalProperties := n;
     TotalSquareFeet := sqft; TotalAssessment := value |}.

(* ===================================================================== *)
(** * Properties *)
(* ===================================================================== *)

(** ** The sorting interface has an instance: insertion sort *)

Lemma insert_by_perm {A} (key : A -> Z) x l :
  Permutation (x :: l) (insert_by key x l).
Proof.
  induction l as [|y l IH]; simpl; auto.
  destruct (key x <=? key y); auto.
  rewrite perm_swap. now constructor.
Qed.

Lemma insertion_sort_perm {A} (key : A -> Z) l :
  Permutation l (insertion_sort key l).
Proof.
  induction l as [|x l IH]; simpl; auto.
  etransitivity; [|apply insert_by_perm]. now constructor.
Qed.

Lemma insert_by_sorted {A} (key : A -> Z) x l :
  StronglySorted (fun a b => key a <= key b) l ->
  StronglySorted (fun a b => key a <= key b) (insert_by key x l).
Proof.
  induction 1 as [|y l Hs IH Hall]; simpl.
  - repeat constructor.
  - destruct (Z.leb_spec (key x) (key y)).
    + constructor; [now constructor|].
      constructor; auto.
      eapply Forall_impl; [|exact Hall]. simpl; intros; lia.
    + constructor; auto.
      eapply Permutation_Forall; [apply insert_by_perm|].
      constructor; [lia|assumption].
Qed.

Lemma insertion_sort_sorted {A} (key : A -> Z) l :
  StronglySorted (fun a b => key a <= key b) (insertion_sort key l).
Proof.
  induction l; simpl; [constructor|now apply insert_by_sorted].
Qed.

#[export] Instance insertion_Sorter : Sorter := {|
  argsort := @insertion_sort;
  argsort_perm := @insertion_sort_perm;
  argsort_sorted := @insertion_sort_sorted
|}.

(** ** Owner names are ordered as Python orders strings *)

Lemma ascii_compare_refl a : Ascii.compare a a = Eq.
Proof. unfold Ascii.compare. apply N.compare_refl. Qed.

Lemma ascii_compare_trans a b c :
  Ascii.compare a b = Lt -> Ascii.compare b c = Lt -> Ascii.compare a c = Lt.
Proof. unfold Ascii.compare. rewrite !N.compare_lt_iff. lia. Qed.

Lemma string_compare_trans a : forall b c,
  String.compare a b = Lt -> String.compare b c = Lt -> String.compare a c = Lt.
Proof.
  induction a as [|x a IH]; intros [|y b] [|z c]; simpl; try congruence.
  destruct (Ascii.compare x y) eqn:Exy; try discriminate;
    destruct (Ascii.compare y z) eqn:Eyz; try discriminate; intros H1 H2.
  - apply Ascii.compare_eq_iff in Exy, Eyz. subst.
    rewrite ascii_compare_refl. eauto.
  - apply Ascii.compare_eq_iff in Exy. subst. now rewrite Eyz.
  - apply Ascii.compare_eq_iff in Eyz. subst. now rewrite Exy.
  - now rewrite (ascii_compare_trans _ _ _ Exy Eyz).
Qed.

Lemma string_compare_eq a b : String.compare a b = Eq <-> a = b.
Proof.
  split; [apply String.compare_eq_iff|intros <-].
  induction a as [|x a IH]; simpl; auto. now rewrite ascii_compare_refl.
Qed.

#[export] Instance string_KeyOrder : KeyOrder string := {|
  kcmp := String.compare;
  kcmp_eq := string_compare_eq;
  kcmp_antisym := fun a b => String.compare_antisym b a;
  kcmp_trans := string_compare_trans
|}.

(** ** Grouping: the keys of [groupby] *)

Section GroupByFacts.
Context {K : Type} `{KeyOrder K} {A : Type}.
Variable key : A -> option K.

Lemma kcmp_refl (a : K) : kcmp a a = Eq.
Proof. now apply kcmp_eq. Qed.

Lemma klt_irrefl (a : K) : ~ klt a a.
Proof. unfold klt. rewrite kcmp_refl. discriminate. Qed.

Lemma kcmp_gt_lt (a b : K) : kcmp a b = Gt -> klt b a.
Proof. unfold klt. intros E. rewrite kcmp_antisym, E. reflexivity. Qed.

Lemma keqb_eq (a b : K) : keqb a b = true <-> a = b.
Proof.
  unfold keqb. rewrite <- kcmp_eq.
  destruct (kcmp a b); split; congruence.
Qed.

Lemma insert_key_In (k x : K) ks :
  In x (insert_key k ks) <-> x = k \/ In x ks.
Proof.
  induction ks as [|k' ks IH]; simpl.
  - intuition.
  - destruct (kcmp k k') eqn:E; simpl.
    + apply kcmp_eq in E. subst. intuition.
    + intuition.
    + rewrite IH. intuition.
Qed.

Lemma group_keys_In (k : K) (df : list A) :
  In k (group_keys key df) <-> exists r, In r df /\ key r = Some k.
Proof.
  induction df as [|r df IH]; simpl.
  - split; [tauto|intros (r & [] & _)].
  - destruct (key r) as [k'|] eqn:E.
    + rewrite insert_key_In, IH. split.
      * intros [->|(r' & Hin & Hk)]; eauto.
      * intros (r' & [<-|Hin] & Hk); [left; congruence|right; eauto].
    + rewrite IH. split.
      * intros (r' & Hin & Hk); eauto.
      * intros (r' & [<-|Hin] & Hk); [congruence|eauto].
Qed.

Lemma insert_key_sorted (k : K) ks :
  StronglySorted klt ks -> StronglySorted klt (insert_key k ks).
Proof.
  induction 1 as [|k' ks Hs IH Hall]; simpl.
  - repeat constructor.
  - destruct (kcmp k k') eqn:E.
    + now constructor.
    + constructor; [now constructor|].
      constructor; [exact E|].
      eapply Forall_impl; [|exact Hall].
      intros c Hc. exact (kcmp_trans _ _ _ E Hc).
    + constructor; [assumption|].
      apply Forall_forall. intros x Hx.
      apply insert_key_In in Hx. destruct Hx as [->|Hx].
      * now apply kcmp_gt_lt.
      * rewrite Forall_forall in Hall. now apply Hall.
Qed.

Lemma group_keys_sorted (df : list A) : StronglySorted klt (group_keys key df).
Proof.
  induction df as [|r df IH]; simpl; [constructor|].
  destruct (key r); [now apply insert_key_sorted|assumption].
Qed.

(** A strictly ascending list is determined by its elements. *)
Lemma sorted_keys_unique (l1 : list K) : forall l2,
  StronglySorted klt l1 -> StronglySorted klt l2 ->
  (forall x, In x l1 <-> In x l2) -> l1 = l2.
Proof.
  induction l1 as [|a l1 IH]; intros [|b l2] S1 S2 Hin.
  - reflexivity.
  - destruct (proj2 (Hin b)); simpl; auto.
  - destruct (proj1 (Hin a)); simpl; auto.
  - inversion S1 as [|? ? S1' F1]; inversion S2 as [|? ? S2' F2]; subst.
    rewrite Forall_forall in F1, F2.
    assert (a = b) as ->.
    { destruct (proj1 (Hin a) (or_introl eq_refl)) as [E|Ha]; [congruence|].
      destruct (proj2 (Hin b) (or_introl eq_refl)) as [E|Hb]; [congruence|].
      exfalso. apply (klt_irrefl a).
      exact (kcmp_trans _ _ _ (F1 _ Hb) (F2 _ Ha)). }
    f_equal. apply IH; auto.
    intros x. split; intros Hx.
    + destruct (proj1 (Hin x) (or_intror Hx)) as [<-|]; [|assumption].
      exfalso. exact (klt_irrefl _ (F1 _ Hx)).
    + destruct (proj2 (Hin x) (or_intror Hx)) as [<-|]; [|assumption].
      exfalso. exact (klt_irrefl _ (F2 _ Hx)).
Qed.

(** The keys, and their order, do not depend on the order of the rows. *)
Lemma group_keys_perm (df df' : list A) :
  Permutation df df' -> group_keys key df = group_keys key df'.
Proof.
  intros P. apply sorted_keys_unique; try apply group_keys_sorted.
  intros x. rewrite !group_keys_In.
  split; intros (r & Hin & Hk); exists r; split; auto.
  - eapply Permutation_in; eauto.
  - eapply Permutation_in; [symmetry|]; eauto.
Qed.

Lemma has_key_spec (k : K) (r : A) : has_key key k r = true <-> key r = Some k.
Proof.
  unfold has_key. destruct (key r) as [k'|].
  - rewrite keqb_eq. split; congruence.
  - split; discriminate.
Qed.

Lemma groupby_keys (df : list A) : map fst (groupby key df) = group_keys key df.
Proof. unfold groupby. rewrite map_map. simpl. apply map_id. Qed.

(** Every group of [groupby] has at least one row. *)
Lemma groupby_nonempty (df : list A) (k : K) (rows : list A) :
  In (k, rows) (groupby key df) ->
  rows = filter (has_key key k) df /\ rows <> [].
Proof.
  unfold groupby. rewrite in_map_iff. intros (k' & [= <- <-] & Hin).
  split; [reflexivity|].
  apply group_keys_In in Hin. destruct Hin as (r & Hr & Hk).
  intros E.
  assert (Hf : In r (filter (has_key key k') df)).
  { apply filter_In. split; [assumption|now apply has_key_spec]. }
  rewrite E in Hf. destruct Hf.
Qed.
End GroupByFacts.

(** ** Sales Normalizer *)

Section SalesNormalizerFacts.
Variable strptime : string -> option Timestamp.

Lemma process_sales_data_cons (r : SaleRow) (rows : list SaleRow) :
  process_sales_data strptime (r :: rows) =
  match to_datetime strptime (raw_SaleDate r) with
  | Some t =>
      if raw_SaleAmount r >? 10000
      then {| sale_ParcelNumber := raw_ParcelNumber r; SaleDate := t;
              SaleAmount := raw_SaleAmount r; Year := year t; Month := month t |}
           :: process_sales_data strptime rows
      else process_sales_data strptime rows
  | None => process_sales_data strptime rows
  end.
Proof.
  unfold process_sales_data. simpl.
  destruct (to_datetime strptime (raw_SaleDate r)); reflexivity.
Qed.

(** C3.  For every sequence of raw sale rows, the output of
    [process_sales_data] lines up, row by row and in input order, with the
    input rows that are not excluded (amount at most 10,000, or a date that
    does not parse in the fixed format); every output row carries the parsed
    date of its input row and the year and month of that date. *)
Theorem process_sales_data_spec (rows : list SaleRow) :
  Forall2 (normalizes strptime)
          (filter (fun r => negb (excluded strptime r)) rows)
          (process_sales_data strptime rows).
Proof.
  induction rows as [|r rows IH]; [constructor|].
  rewrite process_sales_data_cons. simpl. unfold excluded at 1.
  rewrite Z.gtb_ltb, (Z.leb_antisym 10000 (raw_SaleAmount r)).
  destruct (to_datetime strptime (raw_SaleDate r)) as [t|] eqn:E.
  - destruct (10000 <? raw_SaleAmount r); simpl; [|exact IH].
    constructor; [|exact IH].
    unfold normalizes; simpl. rewrite E. auto.
  - rewrite orb_true_r. exact IH.
Qed.
End SalesNormalizerFacts.

Example process_sales_data_runs :
  map (fun s => (Year s, Month s, SaleAmount s))
      (process_sales_data strptime_fixed
         [ sale_row "2023/05/17 00:00:00+00" 300000;
           sale_row "17 May 2023" 450000;
           sale_row "2021/01/04 00:00:00+00" 10000;
           sale_row "2024/02/29 10:30:00+00" 525000 ])
  = [ (2023, 5, 300000); (2024, 2, 525000) ].
Proof. reflexivity. Qed.

(** ** Affordability percentage (C1) *)

(** C1, as stated, fails: with no sale from 2020 on the percentage is the
    number 0, not an undefined value. *)
Lemma affordable_pct_not_undefined :
  total_recent_sales [sale 2019 250000] = 0
  /\ affordable_pct [sale 2019 250000] = Ok (Fin 0)
  /\ ~ undefined_value (affordable_pct [sale 2019 250000]).
Proof. repeat split. intros []. Qed.

(** C1, amended.  When no sale falls in the selected year range
    ([total_recent_sales] is zero) the affordability percentage is the number
    0, returned without an exception. *)
Theorem affordable_pct_zero_total (sales_processed : list SaleRecord) :
  total_recent_sales sales_processed = 0 ->
  affordable_pct sales_processed = Ok (of_Z 0).
Proof.
  intros E. unfold affordable_pct. rewrite E. reflexivity.
Qed.

Lemma affordable_pct_zero_total_witness :
  total_recent_sales [sale 2019 250000] = 0
  /\ affordable_pct [sale 2019 250000] = Ok (of_Z 0).
Proof.
  split; [reflexivity|].
  apply (affordable_pct_zero_total [sale 2019 250000]). reflexivity.
Defined.

(** The guard is what keeps the division from raising. *)
Lemma affordable_pct_never_raises (sales_processed : list SaleRecord) :
  exists v, affordable_pct sales_processed = Ok v.
Proof.
  unfold affordable_pct, py_truediv.
  destruct (Z.gtb_spec (total_recent_sales sales_processed) 0) as [Hpos|]; eauto.
  destruct (Z.eqb_spec (total_recent_sales sales_processed) 0); [lia|].
  simpl. eauto.
Qed.

(** ** Change since 2021 (C2) *)

Lemma iloc_last_nonempty {A} (df : list A) :
  df <> [] -> exists x, iloc_last df = Ok x.
Proof.
  induction df as [|x [|y df] IH]; intros Hne; [congruence|simpl; eauto|].
  apply IH. discriminate.
Qed.

Lemma filter_none {A} (p : A -> bool) (l : list A) :
  (forall x, In x l -> p x = false) -> filter p l = [].
Proof.
  induction l as [|x l IH]; intros Hp; simpl; [reflexivity|].
  rewrite (Hp x (or_introl eq_refl)). apply IH. intros y Hy. apply Hp. now right.
Qed.

(** C2 on the code.  For a parcel whose (non-empty) assessment history has
    no record for 2021, computing the change since 2021 raises IndexError: it
    takes the first row of an empty selection. *)
Theorem change_since_2021_missing_baseline (property_history : list AssessmentRecord) :
  property_history <> [] ->
  (forall r, In r property_history -> TaxYear r <> 2021) ->
  change_since_2021 property_history = Raise IndexError.
Proof.
  intros Hne Hno. unfold change_since_2021.
  destruct (iloc_last_nonempty _ Hne) as (x & ->). simpl.
  rewrite filter_none; [reflexivity|].
  intros r Hr. apply Z.eqb_neq. now apply Hno.
Qed.

Lemma change_since_2021_missing_baseline_witness :
  change_since_2021 [ assessment "330127000" 2022 410000 7 "OAK AVE";
                      assessment "330127000" 2023 455000 7 "OAK AVE" ]
  = Raise IndexError.
Proof.
  apply change_since_2021_missing_baseline.
  - discriminate.
  - intros r [<-|[<-|[]]]; simpl; lia.
Defined.

(** With a 2021 record the two figures are produced. *)
Example change_since_2021_with_baseline :
  change_since_2021 [ assessment "330127000" 2021 400000 7 "OAK AVE";
                      assessment "330127000" 2023 450000 7 "OAK AVE" ]
  = Ok (Fin 50000, Fin (25 # 2)).
Proof. reflexivity. Qed.

(** ** Time-Series Aggregator (C8) *)

Lemma StronglySorted_filter {A} (R : A -> A -> Prop) (p : A -> bool) (l : list A) :
  StronglySorted R l -> StronglySorted R (filter p l).
Proof.
  induction 1 as [|x l Hs IH Hall]; simpl; [constructor|].
  destruct (p x); [|assumption].
  constructor; [assumption|].
  apply Forall_forall. intros y Hy. apply filter_In in Hy.
  rewrite Forall_forall in Hall. now apply Hall.
Qed.

Lemma yearly_stats_Year (sales_processed : list SaleRecord) :
  map ys_Year (yearly_stats sales_processed)
  = filter (fun y => y >=? 2000) (group_keys by_Year sales_processed).
Proof.
  unfold yearly_stats.
  rewrite <- (groupby_keys by_Year sales_processed).
  rewrite !filter_map_swap, map_map. reflexivity.
Qed.

Lemma median_nonempty (xs : list Z) : xs <> [] -> median xs <> NaN.
Proof.
  intros Hne. unfold median.
  assert (Hlen : List.length (sorted_values xs) = List.length xs).
  { symmetry. apply Permutation_length, insertion_sort_perm. }
  rewrite Hlen. destruct xs as [|x xs]; [congruence|]. simpl List.length.
  cbv beta iota. destruct (Nat.even _); discriminate.
Qed.

Lemma mean_nonempty (xs : list Z) : xs <> [] -> mean xs <> NaN.
Proof. destruct xs; [congruence|discriminate]. Qed.

(** C8.  For every normalized sales input: a year is a key of [yearly_stats]
    exactly when it is at least 2000 and some sale has that year (a year
    without qualifying records is absent); the rows are keyed by strictly
    ascending year; and no row is synthesized: every row counts the sales of
    its year, at least one, and its median and mean are defined. *)
Theorem yearly_stats_years (sales_processed : list SaleRecord) :
  (forall y, In y (map ys_Year (yearly_stats sales_processed))
             <-> 2000 <= y /\ exists s, In s sales_processed /\ Year s = y)
  /\ StronglySorted Z.lt (map ys_Year (yearly_stats sales_processed))
  /\ Forall (fun r => 2000 <= ys_Year r
                      /\ Sales r = count (fun s => Year s =? ys_Year r) sales_processed
                      /\ 0 < Sales r
                      /\ MedianPrice r <> NaN
                      /\ AveragePrice r <> NaN)
            (yearly_stats sales_processed).
Proof.
  split; [|split].
  - intros y. rewrite yearly_stats_Year, filter_In, group_keys_In.
    unfold by_Year. split.
    + intros ((s & Hs & [= E]) & Hy). split; [lia|eauto].
    + intros (Hy & s & Hs & E). split; [exists s; split; congruence|lia].
  - rewrite yearly_stats_Year. apply StronglySorted_filter.
    exact (group_keys_sorted by_Year sales_processed).
  - apply Forall_forall. intros r Hr. unfold yearly_stats in Hr.
    apply filter_In in Hr. destruct Hr as (Hr & Hy).
    apply in_map_iff in Hr. destruct Hr as ((k & rows) & <- & Hg).
    apply groupby_nonempty in Hg. destruct Hg as (-> & Hne). simpl in *.
    assert (Hf : filter (has_key by_Year k) sales_processed
                 = filter (fun s => Year s =? k) sales_processed).
    { apply filter_ext. intros s. unfold has_key, by_Year.
      destruct (Z.eqb_spec (Year s) k) as [->|Hn].
      - now apply keqb_eq.
      - destruct (keqb (Year s) k) eqn:E; [|reflexivity].
        apply keqb_eq in E. contradiction. }
    rewrite Hf in *.
    assert (Hm : map SaleAmount (filter (fun s => Year s =? k) sales_processed) <> []).
    { intros E. apply map_eq_nil in E. contradiction. }
    repeat split.
    + lia.
    + unfold count. now rewrite length_map.
    + rewrite length_map.
      destruct (filter (fun s => Year s =? k) sales_processed); [congruence|simpl; lia].
    + now apply median_nonempty.
    + now apply mean_nonempty.
Qed.

Example yearly_stats_runs :
  map (fun r => (ys_Year r, MedianPrice r, Sales r))
      (yearly_stats [ sale 2024 525000; sale 1999 90000; sale 2021 395000;
                      sale 2024 500000; sale 2021 405000; sale 2021 380000 ])
  = [ (2021, Fin 395000, 3); (2024, Fin 512500, 2) ].
Proof. reflexivity. Qed.

Example median_even_count : median [100000; 200000; 300000; 400000] = Fin 250000.
Proof. reflexivity. Qed.

(** ** Affordable price and affordability gap (C9) *)

Lemma Qred_inject_Z (z : Z) : Qred (inject_Z z) = inject_Z z.
Proof.
  unfold Qred, inject_Z.
  generalize (Z.ggcd_gcd z 1) (Z.ggcd_correct_divisors z 1).
  destruct (Z.ggcd z 1) as (g, (a, b)). simpl.
  intros Hg [Ha Hb]. rewrite Z.gcd_1_r in Hg. subst g.
  rewrite Z.mul_1_l in Ha, Hb. subst. reflexivity.
Qed.

Lemma num_mul_of_Z (a b : Z) : num_mul (of_Z a) (of_Z b) = of_Z (a * b).
Proof.
  unfold num_mul, of_Z, fin.
  change (inject_Z a * inject_Z b)%Q with (inject_Z (a * b)).
  now rewrite Qred_inject_Z.
Qed.

Lemma yearly_stats_income_row (sales_processed : list SaleRecord) (row : YearlyRow) :
  In row (yearly_stats_income sales_processed) ->
  MedianIncome row = series_map income_by_year (ys_Year (stat row))
  /\ AffordablePrice row = num_mul (MedianIncome row) (of_Z 3).
Proof.
  unfold yearly_stats_income. rewrite in_map_iff.
  intros (sp & <- & _). split; reflexivity.
Qed.

(** C9, as stated, fails on the gap: the program computes one gap, from the
    median of the sales of 2024 and later and the 2023 income.  Here 2023 has
    a known income, a median price of 300,000 and an affordable price of
    209,487, and the gap is 290,513, not 90,513. *)
Lemma affordability_gap_not_per_year :
  let sales_processed := [sale 2023 300000; sale 2024 500000] in
  exists row,
    In row (yearly_stats_income sales_processed)
    /\ ys_Year (stat row) = 2023
    /\ MedianIncome row = Fin 69829
    /\ MedianPrice (stat row) = Fin 300000
    /\ AffordablePrice row = Fin 209487
    /\ affordability_gap sales_processed = Fin 290513
    /\ affordability_gap sales_processed
       <> num_sub (MedianPrice (stat row)) (AffordablePrice row).
Proof.
  simpl. eexists. split; [left; reflexivity|].
  repeat split. vm_compute. discriminate.
Qed.

(** C9, amended.  For every year with a known income the affordable price
    of that year's row is exactly income x 3 (209,487 for the 2023 income
    69,829, which is also the headline affordable price); the affordability
    gap is computed once, as the median price of the sales of 2024 and later
    minus that 2023 affordable price; and the 2024 row, whose income is
    unmapped, has no affordable price (NaN, not zero). *)
Theorem affordability_figures (sales_processed : list SaleRecord) :
  (forall row i,
      In row (yearly_stats_income sales_processed) ->
      dict_get income_by_year (ys_Year (stat row)) = Some (Some i) ->
      MedianIncome row = of_Z i /\ AffordablePrice row = of_Z (i * 3))
  /\ dict_get income_by_year 2023 = Some (Some 69829)
  /\ affordable_home_price = 69829 * 3
  /\ affordable_home_price = 209487
  /\ affordability_gap sales_processed
     = num_sub (median (map SaleAmount
                          (filter (fun s => Year s >=? 2024) sales_processed)))
               (of_Z 209487)
  /\ dict_get income_by_year 2024 = Some None
  /\ (forall row,
         In row (yearly_stats_income sales_processed) ->
         ys_Year (stat row) = 2024 ->
         MedianIncome row = NaN /\ AffordablePrice row = NaN
         /\ AffordablePrice row <> of_Z 0).
Proof.
  assert (Hrow : forall row,
             In row (yearly_stats_income sales_processed) ->
             ys_Year (stat row) = 2024 ->
             MedianIncome row = NaN /\ AffordablePrice row = NaN).
  { intros row Hin Hy.
    destruct (yearly_stats_income_row _ _ Hin) as (Hm & Ha).
    rewrite Ha, Hm, Hy. split; reflexivity. }
  split.
  - intros row i Hin Hi.
    destruct (yearly_stats_income_row _ _ Hin) as (Hm & Ha).
    rewrite Ha, Hm. unfold series_map. rewrite Hi.
    split; [reflexivity|apply num_mul_of_Z].
  - do 5 (split; [reflexivity|]).
    intros row Hin Hy. destruct (Hrow row Hin Hy) as (Hm & Ha).
    repeat split; try assumption. rewrite Ha. discriminate.
Qed.

(** ** Ownership: local owners and null rows (C4) *)

Lemma count_cons {A} (p : A -> bool) (x : A) (l : list A) :
  count p (x :: l) = (if p x then 1 else 0) + count p l.
Proof. unfold count. simpl. destruct (p x); simpl List.length; lia. Qed.

Lemma count_negb {A} (p : A -> bool) (l : list A) :
  Z.of_nat (List.length l) - count p l = count (fun x => negb (p x)) l.
Proof.
  induction l as [|x l IH]; [reflexivity|].
  rewrite !count_cons. simpl List.length. destruct (p x); simpl negb; lia.
Qed.

Lemma parcel_details_app (a b : list ParcelRecord) :
  parcel_details (a ++ b)%list = (parcel_details a ++ parcel_details b)%list.
Proof.
  induction a as [|r a IH]; simpl; [reflexivity|].
  destruct (OwnerCityState r); simpl; now rewrite IH.
Qed.

Lemma parcel_details_length (raw : list ParcelRecord) :
  Z.of_nat (List.length (parcel_details raw)) = count has_owner_city raw.
Proof.
  induction raw as [|r raw IH]; [reflexivity|].
  rewrite count_cons. unfold has_owner_city at 1. simpl.
  destruct (OwnerCityState r); simpl List.length; lia.
Qed.

Lemma parcel_details_count (q : ParcelRecord -> bool) (raw : list ParcelRecord) :
  (forall r, q r = true -> has_owner_city r = true) ->
  count (fun p => q (parcel p)) (parcel_details raw) = count q raw.
Proof.
  intros Hq. induction raw as [|r raw IH]; [reflexivity|].
  rewrite (count_cons q). simpl.
  destruct (OwnerCityState r) as [s|] eqn:E.
  - rewrite count_cons. simpl. lia.
  - destruct (q r) eqn:Eq; [|lia].
    apply Hq in Eq. unfold has_owner_city in Eq. rewrite E in Eq. discriminate.
Qed.

Lemma parcel_details_lots (q : ParcelRecord -> bool) (raw : list ParcelRecord) :
  (forall r, q r = true -> has_owner_city r = true) ->
  sum_skipna (map lot (filter (fun p => q (parcel p)) (parcel_details raw)))
  = sum_skipna (map LotSquareFeet (filter q raw)).
Proof.
  intros Hq. induction raw as [|r raw IH]; [reflexivity|]. simpl.
  destruct (OwnerCityState r) as [s|] eqn:E; simpl.
  - destruct (q r); simpl; [unfold sum_skipna in *; simpl; rewrite IH|]; auto.
  - destruct (q r) eqn:Eq; [|exact IH].
    apply Hq in Eq. unfold has_owner_city in Eq. rewrite E in Eq. discriminate.
Qed.

Lemma IsLocal_parcel (raw : list ParcelRecord) (p : ParcelClean) :
  In p (parcel_details raw) ->
  IsLocal p = is_local (parcel p) /\ negb (IsLocal p) = is_non_local (parcel p)
  /\ has_owner_city (parcel p) = true.
Proof.
  induction raw as [|r raw IH]; simpl; [tauto|].
  destruct (OwnerCityState r) as [s|] eqn:E; [|exact IH].
  intros [<-|Hin]; [|now apply IH].
  unfold is_local, is_non_local, has_owner_city. simpl. rewrite E. auto.
Qed.

(** C4.  A parcel is local exactly when its owner-city-state, stripped and
    upper-cased, is "CHARLOTTESVILLE VA" (so "charlottesville va " and
    "Charlottesville Va " are local); and the rows with a missing
    owner-city-state take no part in the statistics: the parcel counts and the
    land areas are those of the remaining rows, and removing such a row
    changes none of them. *)
Theorem ownership_classification :
  (forall r s, IsLocal (classify r s) = true
               <-> upper (strip s) = "CHARLOTTESVILLE VA")
  /\ (forall r, IsLocal (classify r "charlottesville va ") = true
                /\ IsLocal (classify r "Charlottesville Va ") = true)
  /\ (forall raw,
        let st := ownership_stats raw in
        total_parcels st = count has_owner_city raw
        /\ local_parcels st = count is_local raw
        /\ non_local_parcels st = count is_non_local raw
        /\ total_land_area st
           = sum_skipna (map LotSquareFeet (filter has_owner_city raw))
        /\ local_land_area st
           = sum_skipna (map LotSquareFeet (filter is_local raw))
        /\ non_local_land_area st
           = sum_skipna (map LotSquareFeet (filter is_non_local raw)))
  /\ (forall before r after,
        OwnerCityState r = None ->
        ownership_stats (before ++ r :: after)%list
        = ownership_stats (before ++ after)%list).
Proof.
  split; [|split; [|split]].
  - intros r s. simpl. apply String.eqb_eq.
  - intros r. split; reflexivity.
  - intros raw. simpl.
    assert (Hloc : forall p, In p (parcel_details raw) -> IsLocal p = is_local (parcel p))
      by (intros p Hp; apply (IsLocal_parcel raw p Hp)).
    assert (Hnon : forall p, In p (parcel_details raw) ->
                             negb (IsLocal p) = is_non_local (parcel p))
      by (intros p Hp; apply (IsLocal_parcel raw p Hp)).
    assert (Hall : forall p, In p (parcel_details raw) ->
                             true = has_owner_city (parcel p))
      by (intros p Hp; symmetry; apply (IsLocal_parcel raw p Hp)).
    repeat split.
    + apply parcel_details_length.
    + unfold count at 1. rewrite (filter_ext_in _ _ _ Hloc).
      apply (parcel_details_count is_local).
      intros r. unfold is_local, has_owner_city. destruct (OwnerCityState r); auto.
    + rewrite count_negb. unfold count at 1. rewrite (filter_ext_in _ _ _ Hnon).
      apply (parcel_details_count is_non_local).
      intros r. unfold is_non_local, has_owner_city. destruct (OwnerCityState r); auto.
    + rewrite <- (filter_true (parcel_details raw)) at 1.
      rewrite (filter_ext_in _ _ _ Hall).
      apply (parcel_details_lots has_owner_city). auto.
    + rewrite (filter_ext_in _ _ _ Hloc).
      apply (parcel_details_lots is_local).
      intros r. unfold is_local, has_owner_city. destruct (OwnerCityState r); auto.
    + rewrite (filter_ext_in _ _ _ Hnon).
      apply (parcel_details_lots is_non_local).
      intros r. unfold is_non_local, has_owner_city. destruct (OwnerCityState r); auto.
  - intros before r after E. unfold ownership_stats.
    rewrite !parcel_details_app. simpl. rewrite E. reflexivity.
Qed.

Lemma ownership_classification_witness :
  ownership_stats [ parcel_row "SMITH, JOHN" (Some "charlottesville va ") 8712;
                    parcel_row "ACME HOLDINGS LLC" None 43560;
                    parcel_row "DOE, JANE" (Some "RICHMOND VA") 4356 ]
  = ownership_stats [ parcel_row "SMITH, JOHN" (Some "charlottesville va ") 8712;
                      parcel_row "DOE, JANE" (Some "RICHMOND VA") 4356 ].
Proof.
  apply (proj2 (proj2 (proj2 ownership_classification))
           [parcel_row "SMITH, JOHN" (Some "charlottesville va ") 8712]
           (parcel_row "ACME HOLDINGS LLC" None 43560)
           [parcel_row "DOE, JANE" (Some "RICHMOND VA") 4356]).
  reflexivity.
Defined.

Example ownership_stats_runs :
  let st := ownership_stats
              [ parcel_row "SMITH, JOHN" (Some "charlottesville va ") 8712;
                parcel_row "ACME HOLDINGS LLC" None 43560;
                parcel_row "DOE, JANE" (Some "RICHMOND VA") 4356 ] in
  (total_parcels st, local_parcels st, non_local_parcels st,
   total_land_area st, local_land_area st, non_local_land_area st)
  = (2, 1, 1, 13068, 8712, 4356).
Proof. reflexivity. Qed.

(** ** Owner ranking (C5) *)

Lemma StronglySorted_snoc {A} (R : A -> A -> Prop) (l : list A) (x : A) :
  StronglySorted R l -> Forall (fun y => R y x) l ->
  StronglySorted R (l ++ [x])%list.
Proof.
  induction 1 as [|y l Hs IH Hall]; intros Hx; simpl.
  - repeat constructor.
  - inversion Hx; subst. constructor; [now apply IH|].
    apply Forall_app. split; [assumption|now constructor].
Qed.

Lemma StronglySorted_rev {A} (R : A -> A -> Prop) (l : list A) :
  StronglySorted R l -> StronglySorted (fun a b => R b a) (rev l).
Proof.
  induction 1 as [|x l Hs IH Hall]; simpl; [constructor|].
  apply StronglySorted_snoc; [assumption|].
  apply Forall_rev. exact Hall.
Qed.

Section SortValuesFacts.
Context `{Sorter} {A : Type}.
Variable by_ : A -> Z.

Lemma sort_values_perm (ascending : bool) (df : list A) :
  Permutation df (sort_values by_ ascending df).
Proof.
  unfold sort_values. destruct ascending; [apply argsort_perm|].
  rewrite <- Permutation_rev. rewrite <- argsort_perm. apply Permutation_rev.
Qed.

Lemma sort_values_ascending (df : list A) :
  StronglySorted (fun a b => by_ a <= by_ b) (sort_values by_ true df).
Proof. apply argsort_sorted. Qed.

Lemma sort_values_descending (df : list A) :
  StronglySorted (fun a b => by_ a >= by_ b) (sort_values by_ false df).
Proof.
  unfold sort_values.
  pose proof (StronglySorted_rev _ _ (argsort_sorted A by_ (rev df))) as Hs.
  simpl in Hs. induction Hs as [|x l Hs IH Hall]; constructor; auto.
  eapply Forall_impl; [|exact Hall]. simpl. intros; lia.
Qed.
End SortValuesFacts.

Lemma sum_perm (xs ys : list Z) : Permutation xs ys -> sum xs = sum ys.
Proof. induction 1; simpl; lia. Qed.

Lemma filter_perm {A} (p : A -> bool) (l l' : list A) :
  Permutation l l' -> Permutation (filter p l) (filter p l').
Proof.
  induction 1 as [|x l l' P IH|x y l|l l' l'' P1 IH1 P2 IH2]; simpl.
  - constructor.
  - destruct (p x); [now constructor|assumption].
  - destruct (p x), (p y); try reflexivity. apply perm_swap.
  - etransitivity; eassumption.
Qed.

Lemma parcel_details_perm (raw raw' : list ParcelRecord) :
  Permutation raw raw' -> Permutation (parcel_details raw) (parcel_details raw').
Proof.
  induction 1 as [|x l l' P IH|x y l|l l' l'' P1 IH1 P2 IH2]; simpl.
  - constructor.
  - destruct (OwnerCityState x); [now constructor|assumption].
  - destruct (OwnerCityState x), (OwnerCityState y); try reflexivity. apply perm_swap.
  - etransitivity; eassumption.
Qed.

(** The per-owner aggregates depend on the rows, not on their order. *)
Lemma owner_groups_perm (has_Assessment : bool) (pd pd' : list ParcelClean) :
  Permutation pd pd' ->
  owner_groups has_Assessment pd = owner_groups has_Assessment pd'.
Proof.
  intros P. unfold owner_groups, groupby. rewrite !map_map. simpl.
  rewrite (group_keys_perm by_OwnerName pd pd' P).
  apply map_ext. intros k.
  pose proof (filter_perm (has_key by_OwnerName k) _ _ P) as Pf.
  f_equal.
  - f_equal. now apply Permutation_length.
  - unfold sum_skipna. apply sum_perm. now do 2 apply Permutation_map.
  - destruct has_Assessment; [|reflexivity].
    unfold sum_skipna. apply sum_perm. now do 2 apply Permutation_map.
Qed.

(** C5, as stated, fails on the tie-break.  Owners A and B have one parcel
    each.  Whatever the sorting routine, the ranking is the same whether B's
    parcel or A's parcel comes first in the table, so for one of the two
    tables the tie is not in encounter order. *)
Lemma ranking_ignores_encounter_order :
  ~ exists S : Sorter,
      ties_in_encounter_order B_then_A (@top_owners S _ false B_then_A) = true
      /\ ties_in_encounter_order A_then_B (@top_owners S _ false A_then_B) = true.
Proof.
  intros (S & HBA & HAB).
  unfold top_owners, sort_values in HBA, HAB.
  change (owner_groups false (parcel_details A_then_B))
    with (owner_groups false (parcel_details B_then_A)) in HAB.
  assert (Hg : rev (owner_groups false (parcel_details B_then_A))
               = [ {| oa_OwnerName := "B"; TotalProperties := 1;
                      TotalSquareFeet := 5000; TotalAssessment := 0 |};
                   {| oa_OwnerName := "A"; TotalProperties := 1;
                      TotalSquareFeet := 6000; TotalAssessment := 0 |} ])
    by reflexivity.
  rewrite Hg in HBA, HAB.
  match type of HBA with
  | context [argsort TotalProperties ?l] =>
      pose proof (argsort_perm _ TotalProperties l) as P
  end.
  apply Permutation_length_2_inv in P.
  destruct P as [E|E]; rewrite E in HBA, HAB; vm_compute in HBA, HAB; discriminate.
Qed.

(** With the insertion sort the tie comes out in owner-name order. *)
Example top_owners_runs :
  map (fun o => (oa_OwnerName o, TotalProperties o)) (top_owners false B_then_A)
  = [ ("A", 1); ("B", 1) ]
  /\ encounter_names B_then_A = [ "B"; "A" ]
  /\ ties_in_encounter_order B_then_A (top_owners false B_then_A) = false.
Proof. repeat split. Qed.

Lemma owner_groups_names (has_Assessment : bool) (pd : list ParcelClean) :
  map oa_OwnerName (owner_groups has_Assessment pd) = group_keys by_OwnerName pd.
Proof.
  unfold owner_groups. rewrite map_map. simpl.
  apply (groupby_keys by_OwnerName pd).
Qed.

(** C5, amended.  The ranking is sorted descending by property count (no
    owner outranks one with more properties) and ranks exactly the per-owner
    aggregates.  Ties are not ordered by encounter order: the aggregates
    reach the sort in ascending owner-name order, and the ranking is the same
    for every reordering of the parcel rows, so re-running on the same input
    gives the same order. *)
Theorem top_owners_ranking `{Sorter} (has_Assessment : bool) (raw : list ParcelRecord) :
  StronglySorted (fun a b => TotalProperties a >= TotalProperties b)
                 (top_owners has_Assessment raw)
  /\ Permutation (owner_groups has_Assessment (parcel_details raw))
                 (top_owners has_Assessment raw)
  /\ StronglySorted (fun a b => String.compare a b = Lt)
       (map oa_OwnerName (owner_groups has_Assessment (parcel_details raw)))
  /\ (forall raw', Permutation raw raw' ->
                   top_owners has_Assessment raw' = top_owners has_Assessment raw).
Proof.
  unfold top_owners. repeat split.
  - apply sort_values_descending.
  - apply sort_values_perm.
  - rewrite owner_groups_names.
    exact (group_keys_sorted by_OwnerName (parcel_details raw)).
  - intros raw' P. f_equal. symmetry.
    apply owner_groups_perm. now apply parcel_details_perm.
Qed.

Lemma top_owners_ranking_witness :
  top_owners false A_then_B = top_owners false B_then_A.
Proof.
  apply (proj2 (proj2 (proj2 (top_owners_ranking false B_then_A))) A_then_B).
  apply perm_swap.
Defined.

(** ** Property search: literal queries (C6, C10) *)

Lemma prefix_ci_spec (query : string) : forall text,
  prefix_ci query text = true <-> exists after, lower text = lower query ++ after.
Proof.
  induction query as [|c query IH]; intros text; simpl.
  - split; eauto.
  - destruct text as [|x text]; simpl.
    + split; [discriminate|intros (? & [=])].
    + rewrite andb_true_iff, Ascii.eqb_eq, IH. split.
      * intros (-> & after & ->). eauto.
      * intros (after & [= -> ->]). eauto.
Qed.

Lemma contains_ci_spec (query : string) : forall text,
  contains_ci query text = true <-> substring_ci query text.
Proof.
  unfold substring_ci. induction text as [|x text IH]; simpl.
  - rewrite orb_false_r, prefix_ci_spec. split.
    + intros (after & E). exists EmptyString, after. exact E.
    + intros ([|? ?] & after & E); [eauto|discriminate].
  - rewrite orb_true_iff, IH, prefix_ci_spec. split.
    + intros [(after & E)|(before & after & E)].
      * exists EmptyString, after. exact E.
      * exists (String (lower_char x) before), after. simpl. now rewrite E.
    + intros ([|b before] & after & E); simpl in E.
      * left. eauto.
      * right. injection E as _ E. eauto.
Qed.

Lemma lower_upper_char (c : ascii) : lower_char (upper_char c) = lower_char c.
Proof. destruct c as [[] [] [] [] [] [] [] []]; reflexivity. Qed.

Lemma is_special_upper_char (c : ascii) : is_special (upper_char c) = is_special c.
Proof. destruct c as [[] [] [] [] [] [] [] []]; reflexivity. Qed.

Lemma plain_upper (s : string) : plain (upper s) = plain s.
Proof.
  unfold plain. induction s as [|c s IH]; simpl; [reflexivity|].
  now rewrite is_special_upper_char, IH.
Qed.

Lemma not_special_cases (c : ascii) :
  is_special c = false ->
  Ascii.eqb c "("%char = false /\ Ascii.eqb c ")"%char = false
  /\ Ascii.eqb c "|"%char = false /\ Ascii.eqb c "."%char = false.
Proof.
  unfold is_special. simpl. intros E.
  repeat (apply orb_false_iff in E; destruct E as [? E]). auto.
Qed.

Lemma parse_from_plain (s : string) : forall f stack,
  plain s = true ->
  parse_from s f stack
  = parse_from EmptyString {| alts := alts f; cur := literal_from s (cur f) |} stack.
Proof.
  induction s as [|c s IH]; intros f stack Hp.
  - destruct f; reflexivity.
  - unfold plain in Hp. simpl in Hp. apply andb_true_iff in Hp.
    destruct Hp as (Hc & Hs). apply negb_true_iff in Hc.
    destruct (not_special_cases c Hc) as (E1 & E2 & E3 & E4).
    simpl. rewrite E1, E2, E3, E4, Hc. now rewrite IH.
Qed.

Lemma sre_parse_plain (s : string) :
  plain s = true -> sre_parse s = Pattern (literal_from s Eps).
Proof. intros Hp. unfold sre_parse. now rewrite parse_from_plain. Qed.

Lemma match_here_literal (p : string) : forall acc text k,
  match_here (literal_from p acc) text k
  = match_here acc text (fun rest => match_chars p rest k).
Proof.
  induction p as [|c p IH]; intros acc text k; simpl; [reflexivity|].
  now rewrite IH.
Qed.

Lemma match_chars_upper (q : string) : forall text,
  match_chars (upper q) text (fun _ => true) = prefix_ci q text.
Proof.
  induction q as [|c q IH]; intros text; simpl; [reflexivity|].
  destruct text as [|x text]; [reflexivity|].
  unfold eq_ignorecase. now rewrite lower_upper_char, IH.
Qed.

Lemma re_search_literal (q : string) : forall text,
  re_search (literal_from (upper q) Eps) text = contains_ci q text.
Proof.
  induction text as [|x text IH]; simpl;
    rewrite match_here_literal; simpl; rewrite match_chars_upper;
    [reflexivity|now rewrite IH].
Qed.

Section SearchFacts.
Context `{Sorter}.
Variable re_beyond : string -> result (string -> bool).
Variable selectbox : list string -> string.

Lemma matching_properties_plain (q : string) (all_assessments : list AssessmentRecord) :
  plain q = true ->
  matching_properties re_beyond q all_assessments
  = Ok (filter (matches_literally q) all_assessments).
Proof.
  intros Hp. unfold matching_properties, str_contains, re_compile.
  rewrite sre_parse_plain by now rewrite plain_upper. simpl.
  f_equal. apply filter_ext. intros r. unfold matches_literally.
  rewrite re_search_literal.
  destruct (StreetName r); simpl; now rewrite ?re_search_literal.
Qed.

Lemma matching_properties_unbalanced (all_assessments : list AssessmentRecord) :
  matching_properties re_beyond "(" all_assessments = Raise re_error.
Proof. reflexivity. Qed.

(** C10.  The query is compiled as a regular expression.  For every query
    without special characters the search returns, in table order, exactly
    the records that contain the query as a case-insensitive substring of the
    full address or of the street name.  A query with special characters is
    not read literally: "(" makes the search raise re.error, whatever the
    table; "." matches "7 OAK AVE", which contains no dot. *)
Theorem search_query_is_a_regex :
  (forall q all_assessments,
      plain q = true ->
      matching_properties re_beyond q all_assessments
      = Ok (filter (matches_literally q) all_assessments))
  /\ (forall q r,
        matches_literally q r = true
        <-> substring_ci q (FullAddress r)
            \/ exists street, StreetName r = CStr street /\ substring_ci q street)
  /\ (plain "(" = false
      /\ forall all_assessments,
           matching_properties re_beyond "(" all_assessments = Raise re_error)
  /\ (plain "." = false
      /\ matching_properties re_beyond "." three_addresses = Ok three_addresses
      /\ filter (matches_literally ".") three_addresses = []).
Proof.
  split; [|split; [|split]].
  - intros q all_assessments. apply matching_properties_plain.
  - intros q r. unfold matches_literally.
    rewrite orb_true_iff, contains_ci_spec. split.
    + intros [Hf|Hs]; [now left|right].
      destruct (StreetName r) as [street| | |]; try discriminate.
      exists street. split; [reflexivity|now apply contains_ci_spec].
    + intros [Hf|(street & -> & Hs)]; [now left|right].
      now apply contains_ci_spec.
  - split; [reflexivity|apply matching_properties_unbalanced].
  - repeat split.
Qed.

(** C6 on the code.  No address below contains a dot, so a literal
    substring search for "." returns nothing; the program returns all three
    records, because the dot is read as "any character".  The query
    "MAIN ST (" makes the search raise re.error. *)
Theorem search_reads_special_characters :
  map FullAddress three_addresses = [ "123 MAIN ST"; "45 MAIN ST"; "7 OAK AVE" ]
  /\ filter (matches_literally ".") three_addresses = []
  /\ matching_properties re_beyond "." three_addresses = Ok three_addresses
  /\ matching_properties re_beyond "MAIN ST (" three_addresses = Raise re_error.
Proof. repeat split. Qed.

(** On a query without special characters the search is the substring
    search of the spec. *)
Example search_MAIN :
  matching_properties re_beyond "MAIN" three_addresses = Ok (firstn 2 three_addresses)
  /\ matching_properties re_beyond "main st" three_addresses
     = Ok (firstn 2 three_addresses)
  /\ matching_properties re_beyond "ELM" three_addresses = Ok [].
Proof. repeat split. Qed.

(** ** Property lookup: zero, one or many matches (C7) *)

Lemma pair_eqb_eq (x y : string * string) : pair_eqb x y = true <-> x = y.
Proof.
  unfold pair_eqb. destruct x as [a b], y as [c d]. simpl.
  rewrite andb_true_iff, !String.eqb_eq. split; [intros []|intros [=]]; subst; auto.
Qed.

Lemma drop_duplicates_from_In (x : string * string) (df : list (string * string)) :
  forall seen,
    In x (drop_duplicates_from seen df) <-> In x df /\ ~ In x seen.
Proof.
  induction df as [|y df IH]; intros seen; simpl; [tauto|].
  destruct (existsb _ seen) eqn:E.
  - apply existsb_exists in E. destruct E as (z & Hz & Ez).
    apply (pair_eqb_eq y z) in Ez. subst z.
    rewrite IH. split; [tauto|]. intros ([->|Hx] & Hn); tauto.
  - assert (Hy : ~ In y seen).
    { intros Hy. rewrite (proj2 (existsb_exists _ seen)) in E; [discriminate|].
      exists y. split; [exact Hy|]. now apply (pair_eqb_eq y y). }
    simpl. rewrite IH. simpl. split.
    + intros [->|(Hx & Hn)]; [tauto|]. split; [tauto|]. intros Hs. apply Hn. now right.
    + intros ([->|Hx] & Hn); [tauto|].
      destruct (pair_eqb x y) eqn:Exy.
      * apply pair_eqb_eq in Exy. now left.
      * right. split; [assumption|]. intros [->|Hs]; [|contradiction].
        rewrite (proj2 (pair_eqb_eq x x) eq_refl) in Exy. discriminate.
Qed.

Lemma drop_duplicates_In (x : string * string) (df : list (string * string)) :
  In x (drop_duplicates df) <-> In x df.
Proof. unfold drop_duplicates. rewrite drop_duplicates_from_In. simpl. tauto. Qed.

Lemma two_members_length {A} (x y : A) (l : list A) :
  In x l -> In y l -> x <> y -> (1 < List.length l)%nat.
Proof.
  destruct l as [|a [|b l]]; simpl; [tauto| |lia].
  intros [<-|[]] [<-|[]] Hne. congruence.
Qed.

(** The history of a parcel: its records, by ascending tax year. *)
Lemma property_history_of_spec (selected_parcel : string)
    (all_assessments : list AssessmentRecord) :
  StronglySorted (fun a b => TaxYear a <= TaxYear b)
                 (property_history_of selected_parcel all_assessments)
  /\ Permutation
       (filter (fun r => String.eqb (ParcelNumber r) selected_parcel) all_assessments)
       (property_history_of selected_parcel all_assessments).
Proof.
  unfold property_history_of. split.
  - apply sort_values_ascending.
  - apply sort_values_perm.
Qed.

Lemma drop_duplicates_from_seen (df seen : list (string * string)) :
  (forall x, In x df -> In x seen) -> drop_duplicates_from seen df = [].
Proof.
  induction df as [|x df IH]; intros Hs; [reflexivity|].
  cbn [drop_duplicates_from].
  change (existsb (fun y => String.eqb (fst x) (fst y) && String.eqb (snd x) (snd y)) seen)
    with (existsb (pair_eqb x) seen).
  destruct (existsb (pair_eqb x) seen) eqn:E.
  - apply IH. intros y Hy. apply Hs. now right.
  - exfalso. rewrite (proj2 (existsb_exists _ seen)) in E; [discriminate|].
    exists x. split; [apply Hs; now left|]. now apply (pair_eqb_eq x x).
Qed.

(** Dropping the duplicates does not change which row comes first among the
    rows that pass a test. *)
Lemma iloc0_drop_duplicates_from (f : string * string -> bool)
    (df : list (string * string)) : forall seen,
  iloc0 (filter f (drop_duplicates_from seen df))
  = iloc0 (filter (fun x => f x && negb (existsb (pair_eqb x) seen)) df).
Proof.
  induction df as [|x df IH]; intros seen; [reflexivity|].
  cbn [drop_duplicates_from filter].
  change (existsb (fun y => String.eqb (fst x) (fst y) && String.eqb (snd x) (snd y)) seen)
    with (existsb (pair_eqb x) seen).
  destruct (existsb (pair_eqb x) seen) eqn:E.
  - rewrite andb_false_r. apply IH.
  - rewrite andb_true_r. cbn [filter]. destruct (f x) eqn:Ef; [reflexivity|].
    rewrite IH. f_equal. apply filter_ext. intros y. cbn [existsb].
    destruct (pair_eqb y x) eqn:Eyx; [|reflexivity].
    apply pair_eqb_eq in Eyx. subst y. rewrite Ef. reflexivity.
Qed.

Lemma iloc0_filter_map_find {A B} (g : B -> bool) (h : A -> B) (l : list A) :
  iloc0 (filter g (map h l))
  = match find (fun r => g (h r)) l with
    | Some r => Ok (h r)
    | None => Raise IndexError
    end.
Proof.
  induction l as [|x l IH]; [reflexivity|]. cbn [map filter find].
  destruct (g (h x)); [reflexivity|exact IH].
Qed.

Lemma unique_addresses_cons (r0 : AssessmentRecord) (rest : list AssessmentRecord) :
  unique_addresses (r0 :: rest)
  = (ParcelNumber r0, FullAddress r0)
      :: drop_duplicates_from [(ParcelNumber r0, FullAddress r0)]
           (map (fun r => (ParcelNumber r, FullAddress r)) rest).
Proof. reflexivity. Qed.

(** The first candidate listed under an address is the parcel of the first
    matching row with that address. *)
Lemma first_candidate_of_address (choice : string) (matching : list AssessmentRecord) :
  iloc0 (filter (fun u => String.eqb (snd u) choice) (unique_addresses matching))
  = match find (fun r => String.eqb (FullAddress r) choice) matching with
    | Some r => Ok (ParcelNumber r, FullAddress r)
    | None => Raise IndexError
    end.
Proof.
  unfold unique_addresses, drop_duplicates.
  rewrite iloc0_drop_duplicates_from.
  rewrite (filter_ext _ (fun u : string * string => String.eqb (snd u) choice))
    by (intros u; cbn [existsb negb]; apply andb_true_r).
  apply (iloc0_filter_map_find (fun u : string * string => String.eqb (snd u) choice)
                               (fun r => (ParcelNumber r, FullAddress r))).
Qed.

Lemma property_lookup_one (sb : list string -> string) (search_address : string)
    (all_assessments matching : list AssessmentRecord) (p a : string) :
  search_address <> EmptyString ->
  matching_properties re_beyond search_address all_assessments = Ok matching ->
  unique_addresses matching = [(p, a)] ->
  property_lookup re_beyond sb search_address all_assessments
  = Ok (Selected a p (property_history_of p all_assessments)).
Proof.
  intros Hq Hm Hu.
  assert (Eq : String.eqb search_address EmptyString = false)
    by now apply String.eqb_neq.
  unfold property_lookup. rewrite Eq, Hm. unfold bind at 1.
  destruct matching as [|r matching]; [discriminate|].
  replace (0 <? Z.of_nat (List.length (r :: matching))) with true
    by (symmetry; apply Z.ltb_lt; simpl List.length; lia).
  cbv zeta. rewrite Hu. reflexivity.
Qed.

Lemma property_lookup_many (sb : list string -> string) (search_address : string)
    (all_assessments matching : list AssessmentRecord) (first : string * string) :
  search_address <> EmptyString ->
  matching_properties re_beyond search_address all_assessments = Ok matching ->
  (1 < List.length (unique_addresses matching))%nat ->
  iloc0 (filter (fun u => String.eqb (snd u)
                            (sb (map snd (unique_addresses matching))))
                (unique_addresses matching)) = Ok first ->
  property_lookup re_beyond sb search_address all_assessments
  = Ok (Selected (sb (map snd (unique_addresses matching))) (fst first)
                 (property_history_of (fst first) all_assessments)).
Proof.
  intros Hq Hm Hlen Hf.
  assert (Eq : String.eqb search_address EmptyString = false)
    by now apply String.eqb_neq.
  unfold property_lookup. rewrite Eq, Hm. unfold bind at 1.
  destruct matching as [|r matching]; [simpl in Hlen; lia|].
  replace (0 <? Z.of_nat (List.length (r :: matching))) with true
    by (symmetry; apply Z.ltb_lt; simpl List.length; lia).
  cbv zeta.
  replace (1 <? Z.of_nat (List.length (unique_addresses (r :: matching)))) with true
    by (symmetry; apply Z.ltb_lt; lia).
  rewrite Hf. reflexivity.
Qed.

(** C7, amended.  For a non-empty query whose search succeeds, by the
    matching rows.  No matching row: the lookup is empty.  All matching rows
    carry one (parcel, address) pair: that pair is selected and the parcel's
    history returned, whatever the select box would answer.  Some matching
    row carries another pair: the select box decides, and the history is
    returned without waiting for a selection; while the user has picked
    nothing its first option stands, so the address and parcel of the first
    matching row are selected; once the user has picked an address, that
    address is selected together with the parcel of the first matching row
    that has it.  In every case the history returned is the selected
    parcel's records ordered by tax year ascending. *)
Theorem property_lookup_by_count (search_address : string)
    (all_assessments matching : list AssessmentRecord) :
  search_address <> EmptyString ->
  matching_properties re_beyond search_address all_assessments = Ok matching ->
  (matching = [] ->
     property_lookup re_beyond selectbox search_address all_assessments = Ok NoMatch)
  /\ (forall r0 rest,
        matching = r0 :: rest ->
        (forall r, In r rest ->
                   ParcelNumber r = ParcelNumber r0 /\ FullAddress r = FullAddress r0) ->
        property_lookup re_beyond selectbox search_address all_assessments
        = Ok (Selected (FullAddress r0) (ParcelNumber r0)
                       (property_history_of (ParcelNumber r0) all_assessments)))
  /\ (forall r0 rest,
        matching = r0 :: rest ->
        (exists r, In r rest
                   /\ (ParcelNumber r <> ParcelNumber r0
                       \/ FullAddress r <> FullAddress r0)) ->
        property_lookup re_beyond (st_selectbox None) search_address all_assessments
        = Ok (Selected (FullAddress r0) (ParcelNumber r0)
                       (property_history_of (ParcelNumber r0) all_assessments))
        /\ forall choice r,
             find (fun r => String.eqb (FullAddress r) choice) matching = Some r ->
             property_lookup re_beyond (st_selectbox (Some choice))
                             search_address all_assessments
             = Ok (Selected choice (ParcelNumber r)
                            (property_history_of (ParcelNumber r) all_assessments)))
  /\ (forall p,
        StronglySorted (fun a b => TaxYear a <= TaxYear b)
                       (property_history_of p all_assessments)
        /\ Permutation
             (filter (fun r => String.eqb (ParcelNumber r) p) all_assessments)
             (property_history_of p all_assessments)).
Proof.
  intros Hq Hm.
  split; [|split; [|split]].
  - intros ->.
    assert (Eq : String.eqb search_address EmptyString = false)
      by now apply String.eqb_neq.
    unfold property_lookup. rewrite Eq, Hm. reflexivity.
  - intros r0 rest -> Hsame.
    apply (property_lookup_one selectbox _ _ _ _ _ Hq Hm).
    rewrite unique_addresses_cons. f_equal.
    apply drop_duplicates_from_seen. intros x Hx.
    apply in_map_iff in Hx. destruct Hx as (r & <- & Hr).
    destruct (Hsame r Hr) as (-> & ->). now left.
  - intros r0 rest -> (r & Hr & Hne).
    assert (Hlen : (1 < List.length (unique_addresses (r0 :: rest)))%nat).
    { apply (two_members_length (ParcelNumber r0, FullAddress r0)
                                (ParcelNumber r, FullAddress r)).
      - apply drop_duplicates_In, in_map_iff. exists r0. split; [reflexivity|now left].
      - apply drop_duplicates_In, in_map_iff. exists r. split; [reflexivity|now right].
      - intros [= E1 E2]. destruct Hne as [Hne|Hne]; congruence. }
    split.
    + assert (Hsb : st_selectbox None (map snd (unique_addresses (r0 :: rest)))
                    = FullAddress r0) by reflexivity.
      pose proof (property_lookup_many (st_selectbox None) _ _ _
                    (ParcelNumber r0, FullAddress r0) Hq Hm Hlen) as L.
      rewrite Hsb in L. apply L.
      rewrite unique_addresses_cons. cbn [filter snd].
      now rewrite String.eqb_refl.
    + intros choice r1 Hfind.
      apply (property_lookup_many (st_selectbox (Some choice)) _ _ _
               (ParcelNumber r1, FullAddress r1) Hq Hm Hlen).
      cbn [st_selectbox]. rewrite first_candidate_of_address, Hfind. reflexivity.
  - intros p. apply property_history_of_spec.
Qed.
End SearchFacts.

(** ** Worked inputs *)

Lemma property_lookup_by_count_witness :
  property_lookup no_extension (st_selectbox (Some "45 MAIN ST")) "main" assessments_db
  = Ok (Selected "45 MAIN ST" "280114100"
                 (property_history_of "280114100" assessments_db)).
Proof.
  assert (Hq : "main" <> EmptyString) by discriminate.
  assert (Hm : matching_properties no_extension "main" assessments_db
               = Ok (firstn 5 assessments_db))
    by reflexivity.
  refine (proj2 (proj1 (proj2 (proj2 (property_lookup_by_count no_extension first_option
                                        "main" assessments_db _ Hq Hm)))
                       _ _ eq_refl _)
                "45 MAIN ST" (assessment "280114100" 2022 510000 45 "MAIN ST") eq_refl).
  exists (assessment "280114100" 2022 510000 45 "MAIN ST").
  split; [right; right; now left|left; discriminate].
Defined.

(** C7 as worded does not hold.  The query "main" matches rows of two
    addresses, 123 MAIN ST and 45 MAIN ST; the user has picked nothing, and
    the history of 123 MAIN ST, the preselected first option, is returned. *)
Lemma history_without_explicit_selection :
  matching_properties no_extension "main" assessments_db = Ok (firstn 5 assessments_db)
  /\ property_lookup no_extension (st_selectbox None) "main" assessments_db
     = Ok (Selected "123 MAIN ST" "280113000"
             [ assessment "280113000" 2021 540000 123 "MAIN ST";
               assessment "280113000" 2022 575000 123 "MAIN ST";
               assessment "280113000" 2023 612000 123 "MAIN ST" ])
  /\ ~ awaits_selection None (firstn 5 assessments_db)
         (property_lookup no_extension (st_selectbox None) "main" assessments_db).
Proof.
  split; [reflexivity|split; [reflexivity|]].
  intros Hw.
  refine (Hw _ eq_refl _ _ _ eq_refl).
  exists (assessment "280113000" 2023 612000 123 "MAIN ST"),
         (assessment "280114100" 2022 510000 45 "MAIN ST").
  split; [now left|split; [right; right; right; now left|discriminate]].
Qed.

Example property_lookup_runs :
  property_lookup no_extension first_option "elm" assessments_db = Ok NoMatch
  /\ property_lookup no_extension first_option EmptyString assessments_db = Ok NoQuery
  /\ property_lookup no_extension second_option "main" assessments_db
     = Ok (Selected "45 MAIN ST" "280114100"
             [ assessment "280114100" 2022 510000 45 "MAIN ST";
               assessment "280114100" 2023 548000 45 "MAIN ST" ])
  /\ property_lookup no_extension first_option "main" assessments_db
     = Ok (Selected "123 MAIN ST" "280113000"
             [ assessment "280113000" 2021 540000 123 "MAIN ST";
               assessment "280113000" 2022 575000 123 "MAIN ST";
               assessment "280113000" 2023 612000 123 "MAIN ST" ]).
Proof. repeat split. Qed.

(** The panel for 7 OAK AVE, assessed in 2022 and 2023 only, raises. *)
Example property_panel_missing_baseline :
  property_panel no_extension first_option "oak" assessments_db = Raise IndexError
  /\ property_panel no_extension first_option "123 main" assessments_db
     = Ok (Selected "123 MAIN ST" "280113000"
             [ assessment "280113000" 2021 540000 123 "MAIN ST";
               assessment "280113000" 2022 575000 123 "MAIN ST";
               assessment "280113000" 2023 612000 123 "MAIN ST" ],
           Some (Fin 72000, Fin (40 # 3))).
Proof. split; reflexivity. Qed.

Lemma search_query_is_a_regex_witness :
  matching_properties no_extension "MAIN" three_addresses
  = Ok (filter (matches_literally "MAIN") three_addresses).
Proof.
  apply (proj1 (search_query_is_a_regex no_extension) "MAIN" three_addresses).
  reflexivity.
Defined.

Lemma yearly_stats_years_witness :
  In 2021 (map ys_Year (yearly_stats [sale 2021 395000; sale 1999 90000])).
Proof.
  apply (proj1 (yearly_stats_years [sale 2021 395000; sale 1999 90000]) 2021).
  split; [lia|]. exists (sale 2021 395000). split; [now left|reflexivity].
Defined.

Lemma affordability_figures_witness :
  In row_2023 (yearly_stats_income [sale 2023 300000; sale 2024 500000])
  /\ MedianIncome row_2023 = of_Z 69829
  /\ AffordablePrice row_2023 = of_Z (69829 * 3).
Proof.
  assert (Hin : In row_2023 (yearly_stats_income [sale 2023 300000; sale 2024 500000]))
    by (left; reflexivity).
  split; [exact Hin|].
  exact (proj1 (affordability_figures [sale 2023 300000; sale 2024 500000])
               row_2023 69829 Hin eq_refl).
Defined.

(* ===================================================================== *)
(** * Further properties of the aggregations *)
(* ===================================================================== *)

(** ** Grouping, continued *)

Lemma StronglySorted_lt_NoDup {K} `{KeyOrder K} (ks : list K) :
  StronglySorted klt ks -> NoDup ks.
Proof.
  induction 1 as [|k ks Hs IH Hall]; constructor; [|assumption].
  intros Hin. rewrite Forall_forall in Hall.
  exact (klt_irrefl k (Hall k Hin)).
Qed.

Lemma group_keys_NoDup {K} `{KeyOrder K} {A} (key : A -> option K) (df : list A) :
  NoDup (group_keys key df).
Proof. apply StronglySorted_lt_NoDup, group_keys_sorted. Qed.

(** Selecting the rows of one year in a frame that has one row per key. *)
Lemma filter_year_map {R} (year_of : R -> Z) (f : Z -> R) (y : Z) (ks : list Z) :
  NoDup ks -> (forall k, year_of (f k) = k) ->
  filter (fun r => year_of r =? y) (map f ks)
  = if existsb (Z.eqb y) ks then [f y] else [].
Proof.
  intros Hnd Hf. induction Hnd as [|k ks Hk Hnd IH]; simpl; [reflexivity|].
  rewrite Hf, IH, (Z.eqb_sym y k).
  destruct (Z.eqb_spec k y) as [->|Hne]; simpl; [|reflexivity].
  destruct (existsb (Z.eqb y) ks) eqn:E; [|reflexivity].
  apply existsb_exists in E. destruct E as (z & Hz & Ez).
  apply Z.eqb_eq in Ez. subst z. contradiction.
Qed.

Lemma existsb_eqb_In (y : Z) (ks : list Z) : existsb (Z.eqb y) ks = true <-> In y ks.
Proof.
  rewrite existsb_exists. split.
  - intros (z & Hz & E). apply Z.eqb_eq in E. now subst.
  - intros Hin. exists y. split; [assumption|apply Z.eqb_refl].
Qed.

Lemma has_key_by_Z {A} (key : A -> Z) (k : Z) (df : list A) :
  filter (has_key (fun r => Some (key r)) k) df = filter (fun r => key r =? k) df.
Proof.
  apply filter_ext. intros r. unfold has_key.
  destruct (Z.eqb_spec (key r) k) as [->|Hn].
  - now apply keqb_eq.
  - destruct (keqb (key r) k) eqn:E; [|reflexivity].
    apply keqb_eq in E. contradiction.
Qed.

(** Filtering the rows by a condition on the key, then grouping, gives the
    keys that satisfy the condition. *)
Lemma group_keys_filter {A} (key : A -> Z) (p : Z -> bool) (df : list A) :
  group_keys (fun r => Some (key r)) (filter (fun r => p (key r)) df)
  = filter p (group_keys (fun r => Some (key r)) df).
Proof.
  apply sorted_keys_unique.
  - apply group_keys_sorted.
  - apply StronglySorted_filter, group_keys_sorted.
  - intros k. rewrite filter_In, !group_keys_In. split.
    + intros (r & Hr & [= E]). apply filter_In in Hr. destruct Hr as (Hr & Hp).
      subst k. split; [eauto|assumption].
    + intros ((r & Hr & [= E]) & Hp). subst k.
      exists r. split; [|reflexivity]. apply filter_In. auto.
Qed.

(** ** The rows of [yearly_stats] *)

Lemma yearly_stats_as_map (sales_processed : list SaleRecord) :
  yearly_stats sales_processed
  = map (yearly_row sales_processed)
        (filter (fun y => y >=? 2000) (group_keys by_Year sales_processed)).
Proof.
  unfold yearly_stats, groupby, by_Year. rewrite map_map, filter_map_swap. simpl.
  apply map_ext. intros y. unfold yearly_row.
  now rewrite (has_key_by_Z Year y sales_processed).
Qed.

Lemma year_listed (sales_processed : list SaleRecord) (y : Z) :
  existsb (Z.eqb y) (filter (fun y => y >=? 2000) (group_keys by_Year sales_processed))
  = (y >=? 2000) && (0 <? count (fun s => Year s =? y) sales_processed).
Proof.
  apply eq_true_iff_eq.
  rewrite existsb_eqb_In, filter_In, group_keys_In, andb_true_iff, Z.ltb_lt.
  unfold count, by_Year. split.
  - intros ((s & Hs & [= E]) & Hy). split; [assumption|].
    assert (Hin : In s (filter (fun s => Year s =? y) sales_processed))
      by (apply filter_In; split; [assumption|now apply Z.eqb_eq]).
    destruct (filter (fun s => Year s =? y) sales_processed); [destruct Hin|simpl; lia].
  - intros (Hy & Hc). split; [|assumption].
    destruct (filter (fun s => Year s =? y) sales_processed) as [|s l] eqn:E;
      [simpl in Hc; lia|].
    assert (Hin : In s (filter (fun s => Year s =? y) sales_processed))
      by (rewrite E; now left).
    apply filter_In in Hin. destruct Hin as (Hin & Ey). apply Z.eqb_eq in Ey.
    exists s. split; [assumption|now rewrite Ey].
Qed.

Lemma value_of_year_map {R} (year_of : R -> Z) (value_of : R -> num)
    (f : Z -> R) (ks : list Z) (y : Z) :
  NoDup ks -> (forall k, year_of (f k) = k) ->
  value_of_year year_of value_of (map f ks) y
  = Ok (if existsb (Z.eqb y) ks then value_of (f y) else of_Z 0).
Proof.
  intros Hnd Hf. unfold value_of_year.
  rewrite (filter_year_map year_of f y ks Hnd Hf).
  destruct (existsb (Z.eqb y) ks); reflexivity.
Qed.

Lemma years_from_2000_NoDup (sales_processed : list SaleRecord) :
  NoDup (filter (fun y => y >=? 2000) (group_keys by_Year sales_processed)).
Proof. apply NoDup_filter, group_keys_NoDup. Qed.

(** X1.  The median price the narrative looks up for a year is the median
    of that year's sale amounts when the year is 2000 or later and has a
    sale, and the number 0 otherwise; the lookup never raises. *)
Theorem price_of_year_value (sales_processed : list SaleRecord) (y : Z) :
  price_of_year sales_processed y
  = Ok (if (y >=? 2000) && (0 <? count (fun s => Year s =? y) sales_processed)
        then median (map SaleAmount (filter (fun s => Year s =? y) sales_processed))
        else of_Z 0).
Proof.
  unfold price_of_year. rewrite yearly_stats_as_map.
  rewrite value_of_year_map;
    [|apply years_from_2000_NoDup|reflexivity].
  now rewrite year_listed.
Qed.

Lemma filter_absorb {A} (p q : A -> bool) (l : list A) :
  (forall x, p x = true -> q x = true) ->
  filter p (filter q l) = filter p l.
Proof.
  intros Hpq. induction l as [|x l IH]; simpl; [reflexivity|].
  destruct (p x) eqn:Ep.
  - rewrite (Hpq x Ep). simpl. now rewrite Ep, IH.
  - destruct (q x); simpl; [rewrite Ep|]; exact IH.
Qed.

Lemma sales_by_year_as_map (sales_processed : list SaleRecord) :
  sales_by_year sales_processed
  = map (fun y => (y, count (fun s => Year s =? y) sales_processed))
        (filter (fun y => y >=? 2000) (group_keys by_Year sales_processed)).
Proof.
  unfold sales_by_year, groupby, by_Year. rewrite map_map. simpl.
  rewrite (group_keys_filter Year (fun y => y >=? 2000) sales_processed).
  apply map_ext_in. intros y Hy. apply filter_In in Hy. destruct Hy as (_ & Hy).
  f_equal. unfold count. do 2 f_equal.
  rewrite (has_key_by_Z Year y).
  apply filter_absorb. intros s E. apply Z.eqb_eq in E. now rewrite E.
Qed.

(** X2.  The sales-activity chart and the price chart count the same sales:
    the frame [sales_by_year], which filters the years before grouping, is the
    year and sale-count columns of [yearly_stats], which groups before
    filtering. *)
Theorem sales_by_year_agrees (sales_processed : list SaleRecord) :
  sales_by_year sales_processed
  = map (fun r => (ys_Year r, Sales r)) (yearly_stats sales_processed).
Proof.
  rewrite sales_by_year_as_map, yearly_stats_as_map, map_map.
  apply map_ext. intros y. unfold yearly_row, count. simpl.
  now rewrite length_map.
Qed.

(** X3.  For a year from 2000 on, the sale count the narrative looks up is
    the number of sales of that year: the 0 it defaults to when the year has
    no row is the true count. *)
Theorem sales_of_year_counts (sales_processed : list SaleRecord) (y : Z) :
  2000 <= y ->
  sales_of_year sales_processed y
  = Ok (of_Z (count (fun s => Year s =? y) sales_processed)).
Proof.
  intros Hy. unfold sales_of_year. rewrite sales_by_year_as_map.
  rewrite (value_of_year_map fst (fun r => of_Z (snd r)));
    [|apply years_from_2000_NoDup|reflexivity].
  rewrite year_listed. simpl.
  replace (y >=? 2000) with true by (symmetry; apply Z.geb_le; lia). simpl.
  destruct (Z.ltb_spec 0 (count (fun s => Year s =? y) sales_processed)) as [|Hc];
    [reflexivity|].
  unfold count in *. f_equal. f_equal. lia.
Qed.

Lemma sales_of_year_counts_witness :
  sales_of_year [sale 2021 395000; sale 2024 500000; sale 2021 380000] 2021
  = Ok (of_Z 2)
  /\ sales_of_year [sale 2021 395000; sale 2024 500000; sale 2021 380000] 2022
     = Ok (of_Z 0).
Proof.
  split.
  - apply (sales_of_year_counts [sale 2021 395000; sale 2024 500000; sale 2021 380000] 2021).
    lia.
  - apply (sales_of_year_counts [sale 2021 395000; sale 2024 500000; sale 2021 380000] 2022).
    lia.
Defined.

(** ** Grouping conserves the rows *)

Lemma sum_app (xs ys : list Z) : sum (xs ++ ys)%list = sum xs + sum ys.
Proof. induction xs; simpl; lia. Qed.

Lemma sum_map_add {A} (f g : A -> Z) (l : list A) :
  sum (map (fun x => f x + g x) l) = sum (map f l) + sum (map g l).
Proof. induction l; simpl; lia. Qed.

Lemma sum_map_zero {A} (f : A -> Z) (l : list A) :
  (forall x, In x l -> f x = 0) -> sum (map f l) = 0.
Proof.
  induction l as [|x l IH]; intros Hf; simpl; [reflexivity|].
  rewrite (Hf x (or_introl eq_refl)), IH; [reflexivity|].
  intros y Hy. apply Hf. now right.
Qed.

Lemma length_as_sum {A} (l : list A) :
  Z.of_nat (List.length l) = sum (map (fun _ => 1) l).
Proof.
  induction l as [|x l IH]; [reflexivity|].
  simpl List.length. rewrite Nat2Z.inj_succ.
  change (sum (map (fun _ : A => 1) (x :: l)))
    with (1 + sum (map (fun _ : A => 1) l)).
  lia.
Qed.

Section GroupBySums.
Context {K : Type} `{KeyOrder K} {A : Type}.
Variable key : A -> option K.
Variable w : A -> Z.

Lemma sum_one_key (k0 : K) (c : Z) (ks : list K) :
  NoDup ks -> In k0 ks ->
  sum (map (fun k => if keqb k0 k then c else 0) ks) = c.
Proof.
  induction 1 as [|k ks Hk Hnd IH]; intros Hin; [destruct Hin|]. simpl.
  destruct Hin as [->|Hin].
  - rewrite (proj2 (keqb_eq k0 k0) eq_refl).
    rewrite sum_map_zero; [lia|].
    intros x Hx. destruct (keqb k0 x) eqn:E; [|reflexivity].
    apply keqb_eq in E. subst. contradiction.
  - destruct (keqb k0 k) eqn:E.
    + apply keqb_eq in E. subst. contradiction.
    + now rewrite IH.
Qed.

Lemma sum_over_keys (ks : list K) (df : list A) :
  NoDup ks ->
  (forall r k, In r df -> key r = Some k -> In k ks) ->
  sum (map (fun k => sum (map w (filter (has_key key k) df))) ks)
  = sum (map w (filter (keyed key) df)).
Proof.
  intros Hnd. induction df as [|r df IH]; intros Hks.
  - simpl. apply sum_map_zero. reflexivity.
  - assert (IH' : sum (map (fun k => sum (map w (filter (has_key key k) df))) ks)
                  = sum (map w (filter (keyed key) df)))
      by (apply IH; intros r' k Hr; apply Hks; now right).
    rewrite (map_ext _ (fun k => (if has_key key k r then w r else 0)
                                 + sum (map w (filter (has_key key k) df)))).
    2:{ intros k. simpl. destruct (has_key key k r); simpl; lia. }
    rewrite sum_map_add, IH'. simpl. unfold keyed at 2, has_key.
    destruct (key r) as [k0|] eqn:E; simpl.
    + rewrite sum_one_key; [reflexivity|assumption|].
      apply (Hks r k0); [now left|assumption].
    + rewrite sum_map_zero; [reflexivity|reflexivity].
Qed.

(** The groups of [groupby] share out the rows that have a key: a column
    summed group by group adds up to the column summed over those rows. *)
Lemma groupby_sum (df : list A) :
  sum (map (fun g => sum (map w (snd g))) (groupby key df))
  = sum (map w (filter (keyed key) df)).
Proof.
  unfold groupby. rewrite map_map. simpl.
  apply sum_over_keys; [apply group_keys_NoDup|].
  intros r k Hr Hk. apply group_keys_In. eauto.
Qed.
End GroupBySums.

(** X4.  The sale counts of [sales_by_year] add up to the number of sales
    dated 2000 or later: no sale is dropped or counted twice. *)
Theorem sales_by_year_total (sales_processed : list SaleRecord) :
  sum (map snd (sales_by_year sales_processed))
  = count (fun s => Year s >=? 2000) sales_processed.
Proof.
  unfold sales_by_year, count. rewrite map_map. simpl.
  rewrite (map_ext _ (fun g : Z * list SaleRecord => sum (map (fun _ => 1) (snd g))))
    by (intros g; apply length_as_sum).
  rewrite (groupby_sum by_Year (fun _ => 1)).
  rewrite (filter_ext _ (fun _ => true)) by reflexivity.
  rewrite filter_true. symmetry. apply length_as_sum.
Qed.

(** ** The aggregates do not depend on the order of the rows *)

Lemma sorted_perm_eq (l1 : list Z) : forall l2,
  StronglySorted Z.le l1 -> StronglySorted Z.le l2 ->
  Permutation l1 l2 -> l1 = l2.
Proof.
  induction l1 as [|a l1 IH]; intros l2 S1 S2 P.
  - apply Permutation_nil in P. now subst.
  - destruct l2 as [|b l2]; [apply Permutation_sym, Permutation_nil in P; discriminate|].
    inversion S1 as [|? ? S1' F1]; inversion S2 as [|? ? S2' F2]; subst.
    rewrite Forall_forall in F1, F2.
    assert (a = b).
    { assert (Ha : In a (b :: l2)) by (eapply Permutation_in; [exact P|now left]).
      assert (Hb : In b (a :: l1))
        by (eapply Permutation_in; [symmetry; exact P|now left]).
      destruct Ha as [->|Ha]; [reflexivity|].
      destruct Hb as [->|Hb]; [reflexivity|].
      specialize (F1 _ Hb). specialize (F2 _ Ha). lia. }
    subst b. f_equal. apply IH; auto.
    now apply Permutation_cons_inv in P.
Qed.

Lemma sorted_values_perm (xs ys : list Z) :
  Permutation xs ys -> sorted_values xs = sorted_values ys.
Proof.
  intros P. unfold sorted_values.
  apply sorted_perm_eq; try apply (insertion_sort_sorted (fun x : Z => x)).
  rewrite <- !(insertion_sort_perm (fun x : Z => x)). exact P.
Qed.

Lemma median_perm (xs ys : list Z) : Permutation xs ys -> median xs = median ys.
Proof. intros P. unfold median. now rewrite (sorted_values_perm xs ys P). Qed.

Lemma quantile_75_perm (xs ys : list Z) :
  Permutation xs ys -> quantile_75 xs = quantile_75 ys.
Proof. intros P. unfold quantile_75. now rewrite (sorted_values_perm xs ys P). Qed.

Lemma mean_perm (xs ys : list Z) : Permutation xs ys -> mean xs = mean ys.
Proof.
  intros P. unfold mean.
  rewrite (sum_perm xs ys P), (Permutation_length P).
  destruct xs, ys; try reflexivity.
  - apply Permutation_nil in P. discriminate.
  - apply Permutation_sym, Permutation_nil in P. discriminate.
Qed.

(** X5.  The Time-Series Aggregator is a function of the set of sales, not
    of their order: reordering the rows of [sales_processed] changes neither
    [yearly_stats] nor the 75th percentiles. *)
Theorem yearly_stats_order_independent (sales_processed reordered : list SaleRecord) :
  Permutation sales_processed reordered ->
  yearly_stats reordered = yearly_stats sales_processed
  /\ percentile_75 reordered = percentile_75 sales_processed.
Proof.
  intros P.
  assert (Hk : group_keys by_Year reordered = group_keys by_Year sales_processed)
    by (symmetry; now apply group_keys_perm).
  assert (Ha : forall k,
             Permutation
               (map SaleAmount (filter (has_key by_Year k) reordered))
               (map SaleAmount (filter (has_key by_Year k) sales_processed)))
    by (intros k; apply Permutation_map, filter_perm; now symmetry).
  split.
  - unfold yearly_stats, groupby. rewrite !map_map, Hk. simpl.
    f_equal. apply map_ext. intros k.
    rewrite (median_perm _ _ (Ha k)), (mean_perm _ _ (Ha k)).
    now rewrite (Permutation_length (Ha k)).
  - unfold percentile_75, groupby. rewrite !map_map, Hk. simpl.
    apply map_ext. intros k. now rewrite (quantile_75_perm _ _ (Ha k)).
Qed.

Lemma yearly_stats_order_independent_witness :
  yearly_stats [sale 2021 380000; sale 2024 500000; sale 2021 395000]
  = yearly_stats [sale 2021 395000; sale 2024 500000; sale 2021 380000].
Proof.
  apply (yearly_stats_order_independent
           [sale 2021 395000; sale 2024 500000; sale 2021 380000]
           [sale 2021 380000; sale 2024 500000; sale 2021 395000]).
  apply (perm_trans (l' := [sale 2024 500000; sale 2021 395000; sale 2021 380000])).
  - apply perm_swap.
  - apply (perm_trans (l' := [sale 2024 500000; sale 2021 380000; sale 2021 395000])).
    + apply perm_skip, perm_swap.
    + apply perm_swap.
Defined.

(** ** The merge of the 75th percentiles (line 215) *)

Lemma flat_map_singletons {A B} (f : A -> list B) (g : A -> B) (l : list A) :
  (forall x, In x l -> f x = [g x]) -> flat_map f l = map g l.
Proof.
  induction l as [|x l IH]; intros Hf; simpl; [reflexivity|].
  rewrite (Hf x (or_introl eq_refl)), IH; [reflexivity|].
  intros y Hy. apply Hf. now right.
Qed.

Lemma percentile_75_as_map (sales_processed : list SaleRecord) :
  percentile_75 sales_processed
  = map (fun y => (y, quantile_75 (map SaleAmount
                                      (filter (fun s => Year s =? y) sales_processed))))
        (group_keys by_Year sales_processed).
Proof.
  unfold percentile_75, groupby, by_Year. rewrite map_map. simpl.
  apply map_ext. intros y. now rewrite (has_key_by_Z Year y sales_processed).
Qed.

(** X6.  The left merge with the 75th percentiles keeps the rows of
    [yearly_stats] one for one and in order, and gives each the percentile
    of its own year: no row is duplicated and none is filled with NaN. *)
Theorem merge_percentile_one_to_one (sales_processed : list SaleRecord) :
  merge_left (yearly_stats sales_processed) (percentile_75 sales_processed)
  = map (fun r =>
           (r, quantile_75 (map SaleAmount
                              (filter (fun s => Year s =? ys_Year r) sales_processed))))
        (yearly_stats sales_processed).
Proof.
  unfold merge_left. apply flat_map_singletons.
  intros r Hr. rewrite yearly_stats_as_map in Hr.
  apply in_map_iff in Hr. destruct Hr as (y & <- & Hy).
  apply filter_In in Hy. destruct Hy as (Hy & _). simpl.
  rewrite percentile_75_as_map.
  rewrite (filter_year_map fst _ y (group_keys by_Year sales_processed));
    [|apply group_keys_NoDup|reflexivity].
  rewrite (proj2 (existsb_eqb_In y _) Hy). reflexivity.
Qed.

(** ** Assessment values over time (lines 385-415) *)

Lemma assessment_stats_Year (all_assessments : list AssessmentRecord) :
  map as_Year (assessment_stats all_assessments)
  = filter (fun y => y >=? 2000) (group_keys by_TaxYear all_assessments).
Proof.
  unfold assessment_stats.
  rewrite <- (groupby_keys by_TaxYear all_assessments).
  rewrite !filter_map_swap, map_map. reflexivity.
Qed.

Lemma value_of_year_ok {R} (year_of : R -> Z) (value_of : R -> num)
    (df : list R) (y : Z) :
  exists v, value_of_year year_of value_of df y = Ok v.
Proof.
  unfold value_of_year.
  destruct (filter (fun r => year_of r =? y) df) as [|r l]; simpl; eauto.
Qed.

Lemma iloc_last_In {A} (df : list A) (x : A) : iloc_last df = Ok x -> In x df.
Proof.
  induction df as [|a [|b df] IH]; simpl; intros E; [discriminate| |].
  - injection E as ->. now left.
  - right. now apply IH.
Qed.

Lemma iloc_last_max (ks : list Z) (x : Z) :
  StronglySorted Z.lt ks -> iloc_last ks = Ok x -> Forall (fun k => k <= x) ks.
Proof.
  induction 1 as [|a ks Hs IH Hall]; intros E; [constructor|].
  destruct ks as [|b ks].
  - injection E as ->. repeat constructor. lia.
  - assert (E' : iloc_last (b :: ks) = Ok x) by exact E.
    constructor; [|now apply IH].
    apply iloc_last_In in E'. rewrite Forall_forall in Hall.
    specialize (Hall x E'). lia.
Qed.

Lemma iloc_last_map {A B} (f : A -> B) (df : list A) :
  iloc_last (map f df)
  = match iloc_last df with Ok x => Ok (f x) | Raise e => Raise e end.
Proof.
  induction df as [|a [|b df] IH]; simpl; try reflexivity. exact IH.
Qed.

Lemma assessment_stats_as_map (all_assessments : list AssessmentRecord) :
  assessment_stats all_assessments
  = map (fun y =>
           let values :=
             map TotalValue (filter (fun r => TaxYear r =? y) all_assessments) in
           {| as_Year := y;
              MedianAssessment := median values;
              AverageAssessment := mean values |})
        (filter (fun y => y >=? 2000) (group_keys by_TaxYear all_assessments)).
Proof.
  unfold assessment_stats, groupby, by_TaxYear.
  rewrite map_map, filter_map_swap. simpl.
  apply map_ext. intros y.
  now rewrite (has_key_by_Z TaxYear y all_assessments).
Qed.

Lemma tax_year_listed (all_assessments : list AssessmentRecord) (y : Z) :
  In y (filter (fun y => y >=? 2000) (group_keys by_TaxYear all_assessments))
  <-> 2000 <= y /\ exists r, In r all_assessments /\ TaxYear r = y.
Proof.
  rewrite filter_In, group_keys_In. unfold by_TaxYear. split.
  - intros ((r & Hr & [= E]) & Hy). apply Z.geb_le in Hy. split; [lia|eauto].
  - intros (Hy & r & Hr & E). split; [exists r; split; congruence|].
    apply Z.geb_le. lia.
Qed.

Lemma count_pos_iff {A} (p : A -> bool) (l : list A) :
  (0 <? count p l) = true <-> exists x, In x l /\ p x = true.
Proof.
  rewrite Z.ltb_lt. unfold count. split.
  - intros Hc. destruct (filter p l) as [|x l'] eqn:E; [simpl in Hc; lia|].
    exists x. apply filter_In. rewrite E. now left.
  - intros (x & Hx). apply filter_In in Hx.
    destruct (filter p l); [destruct Hx|simpl; lia].
Qed.

(** X7.  The assessment narrative takes the last row of [assessment_stats]
    without a guard.  It raises IndexError exactly when no assessment has a
    tax year of 2000 or later.  Otherwise it returns the increase of the
    median value of the latest tax year in the table over the median value of
    2021, the latter being taken as 0 (which makes the figure 0) when no
    assessment is dated 2021. *)
Theorem assessment_increase_latest (all_assessments : list AssessmentRecord) :
  (assessment_increase all_assessments = Raise IndexError
   <-> forall r, In r all_assessments -> TaxYear r < 2000)
  /\ ((exists r, In r all_assessments /\ 2000 <= TaxYear r) ->
      exists latest_year,
        (exists r, In r all_assessments /\ TaxYear r = latest_year)
        /\ (forall r, In r all_assessments -> TaxYear r <= latest_year)
        /\ assessment_increase all_assessments
           = Ok (pct_increase
                   (median (map TotalValue
                              (filter (fun r => TaxYear r =? latest_year)
                                      all_assessments)))
                   (if 0 <? count (fun r => TaxYear r =? 2021) all_assessments
                    then median (map TotalValue
                                   (filter (fun r => TaxYear r =? 2021)
                                           all_assessments))
                    else of_Z 0))).
Proof.
  unfold assessment_increase. cbv zeta.
  rewrite assessment_stats_as_map.
  set (years := filter (fun y => y >=? 2000) (group_keys by_TaxYear all_assessments)).
  assert (Hnd : NoDup years) by apply NoDup_filter, group_keys_NoDup.
  assert (Hs : StronglySorted Z.lt years)
    by (apply StronglySorted_filter;
        exact (group_keys_sorted by_TaxYear all_assessments)).
  assert (Hin : forall y, In y years
                          <-> 2000 <= y /\ exists r, In r all_assessments /\ TaxYear r = y)
    by (intros y; apply tax_year_listed).
  rewrite (value_of_year_map as_Year MedianAssessment _ years 2021 Hnd)
    by reflexivity.
  cbn [bind]. rewrite iloc_last_map.
  assert (H2021 : existsb (Z.eqb 2021) years
                  = (0 <? count (fun r => TaxYear r =? 2021) all_assessments)).
  { apply eq_true_iff_eq. rewrite existsb_eqb_In, Hin, count_pos_iff. split.
    - intros (_ & r & Hr & E). exists r. split; [assumption|now apply Z.eqb_eq].
    - intros (r & Hr & E). apply Z.eqb_eq in E. split; [lia|eauto]. }
  rewrite H2021. cbn [MedianAssessment].
  destruct (iloc_last years) as [latest_year|e] eqn:El.
  - cbn [bind]. split.
    + split; [discriminate|]. intros Hlt. exfalso.
      apply iloc_last_In, Hin in El. destruct El as (Hy & r & Hr & E).
      specialize (Hlt r Hr). lia.
    + intros _. exists latest_year.
      pose proof (iloc_last_max years latest_year Hs El) as Hmax.
      rewrite Forall_forall in Hmax.
      apply iloc_last_In, Hin in El. destruct El as (Hy & r0 & Hr0 & E0).
      split; [eauto|]. split; [|reflexivity].
      intros r Hr. destruct (Z.ltb_spec (TaxYear r) 2000) as [|Hge]; [lia|].
      apply Hmax, Hin. split; [lia|eauto].
  - assert (Hnil : years = []).
    { destruct years as [|y l]; [reflexivity|].
      destruct (iloc_last_nonempty (y :: l)) as (x & Ex); [discriminate|].
      rewrite Ex in El. discriminate. }
    rewrite Hnil in El. simpl in El. injection El as <-. cbn [bind]. split.
    + split; [|reflexivity]. intros _ r Hr.
      destruct (Z.ltb_spec (TaxYear r) 2000) as [|Hge]; [assumption|]. exfalso.
      assert (Hy : In (TaxYear r) years) by (apply Hin; split; [lia|eauto]).
      rewrite Hnil in Hy. destruct Hy.
    + intros (r & Hr & Hy). exfalso.
      assert (Hy' : In (TaxYear r) years) by (apply Hin; split; [lia|eauto]).
      rewrite Hnil in Hy'. destruct Hy'.
Qed.

Lemma assessment_increase_latest_witness :
  exists latest_year,
    (exists r, In r assessments_db /\ TaxYear r = latest_year)
    /\ (forall r, In r assessments_db -> TaxYear r <= latest_year)
    /\ assessment_increase assessments_db
       = Ok (pct_increase
               (median (map TotalValue
                          (filter (fun r => TaxYear r =? latest_year) assessments_db)))
               (if 0 <? count (fun r => TaxYear r =? 2021) assessments_db
                then median (map TotalValue
                               (filter (fun r => TaxYear r =? 2021) assessments_db))
                else of_Z 0)).
Proof.
  apply (proj2 (assessment_increase_latest assessments_db)).
  exists (assessment "280113000" 2023 612000 123 "MAIN ST").
  split; [now left|simpl; lia].
Defined.

Example assessment_increase_runs :
  assessment_increase assessments_db = Ok (Fin (40 # 27))
  /\ assessment_increase [assessment "280113000" 1998 90000 123 "MAIN ST"]
     = Raise IndexError
  /\ assessment_increase [] = Raise IndexError.
Proof. repeat split. Qed.

(** ** The headline metrics (lines 135-175) *)

Lemma count_nonneg {A} (p : A -> bool) (l : list A) : 0 <= count p l.
Proof. unfold count. lia. Qed.

Lemma count_andb_le {A} (p q : A -> bool) (l : list A) :
  count (fun x => p x && q x) l <= count p l.
Proof.
  induction l as [|x l IH]; [reflexivity|].
  rewrite !count_cons. destruct (p x), (q x); cbn [andb]; lia.
Qed.

(** X8.  The affordability percentage is always a finite number between 0
    and 100: the homes counted as affordable are among the sales counted as
    recent, and the guard covers the empty case. *)
Theorem affordable_pct_range (sales_processed : list SaleRecord) :
  exists q, affordable_pct sales_processed = Ok (Fin q) /\ (0 <= q <= 100)%Q.
Proof.
  unfold affordable_pct, py_truediv.
  assert (Hle : homes_affordable sales_processed <= total_recent_sales sales_processed)
    by apply (count_andb_le (fun s => Year s >=? 2020)
                (fun s => SaleAmount s <=? affordable_home_price)).
  assert (H0 : 0 <= homes_affordable sales_processed) by apply count_nonneg.
  destruct (Z.gtb_spec (total_recent_sales sales_processed) 0) as [Hpos|Hnpos].
  - destruct (Z.eqb_spec (total_recent_sales sales_processed) 0) as [E|_]; [lia|].
    unfold bind, fin. eexists. split; [reflexivity|].
    rewrite !Qred_correct.
    destruct (total_recent_sales sales_processed) as [|t|t]; try lia.
    unfold Qle, Qmult, Qdiv, Qinv, inject_Z. simpl.
    split; nia.
  - exists 0%Q. split; [reflexivity|]. split; [apply Qle_refl|discriminate].
Qed.

Lemma median_Fin (xs : list Z) : xs <> [] -> exists q, median xs = Fin q.
Proof.
  intros Hne. unfold median.
  assert (Hlen : List.length (sorted_values xs) = List.length xs)
    by (symmetry; apply Permutation_length, insertion_sort_perm).
  rewrite Hlen. destruct xs as [|x xs]; [congruence|]. simpl List.length.
  cbv beta iota. destruct (Nat.even _); unfold fin, of_Z; eauto.
Qed.

Lemma recent_amounts_nil (sales_processed : list SaleRecord) :
  map SaleAmount (filter (fun s => Year s >=? 2024) sales_processed) = []
  <-> forall s, In s sales_processed -> Year s < 2024.
Proof.
  split.
  - intros E s Hs. destruct (Z.ltb_spec (Year s) 2024) as [|Hge]; [assumption|].
    exfalso. apply map_eq_nil in E.
    assert (Hin : In s (filter (fun s => Year s >=? 2024) sales_processed))
      by (apply filter_In; split; [assumption|apply Z.geb_le; lia]).
    rewrite E in Hin. destruct Hin.
  - intros Hlt. rewrite filter_none; [reflexivity|].
    intros s Hs. specialize (Hlt s Hs).
    destruct (Z.geb_spec (Year s) 2024); [lia|reflexivity].
Qed.

(** X9.  Unlike the affordability percentage, the three headline figures
    taken from the median have no guard: the affordability gap and the income
    needed are NaN exactly when no sale is dated 2024 or later, and then the
    price increase is NaN too; nothing is raised and nothing defaults to 0. *)
Theorem headline_median_figures (sales_processed : list SaleRecord) :
  (affordability_gap sales_processed = NaN
   <-> forall s, In s sales_processed -> Year s < 2024)
  /\ (income_needed sales_processed = NaN
      <-> forall s, In s sales_processed -> Year s < 2024)
  /\ ((forall s, In s sales_processed -> Year s < 2024) ->
      price_increase_pct sales_processed = NaN).
Proof.
  rewrite <- (recent_amounts_nil sales_processed).
  unfold affordability_gap, income_needed, price_increase_pct, recent_prices,
    Last_Year_median_price.
  destruct (map SaleAmount (filter (fun s => Year s >=? 2024) sales_processed))
    as [|x amounts].
  - repeat split; reflexivity.
  - destruct (median_Fin (x :: amounts)) as (q & ->); [discriminate|].
    repeat split; try discriminate.
Qed.

Lemma headline_median_figures_witness :
  price_increase_pct [sale 2021 395000; sale 2023 460000] = NaN.
Proof.
  apply (proj2 (proj2 (headline_median_figures [sale 2021 395000; sale 2023 460000]))).
  intros s [<-|[<-|[]]]; simpl; lia.
Defined.

(** ** Ownership totals (lines 790-840) *)











Example top_owners_conserve_runs :
  let raw := [ parcel_row "B" (Some "RICHMOND VA") 5000;
               {| OwnerName := None; OwnerCityState := Some "CHARLOTTESVILLE VA";
                  LotSquareFeet := Some 900; Assessment := None |};
               parcel_row "A" None 700;
               parcel_row "B" (Some "CHARLOTTESVILLE VA") 6000 ] in
  map (fun o => (oa_OwnerName o, TotalProperties o, TotalSquareFeet o))
      (top_owners false raw) = [ ("B", 2, 11000) ]
  /\ total_parcels (ownership_stats raw) = 3.
Proof. split; reflexivity. Qed.

(** ** The owners table and the top-10 charts (lines 848-933) *)

Lemma StronglySorted_app_inv {A} (R : A -> A -> Prop) (l1 l2 : list A) :
  StronglySorted R (l1 ++ l2)%list ->
  StronglySorted R l1 /\ StronglySorted R l2
  /\ forall a b, In a l1 -> In b l2 -> R a b.
Proof.
  induction l1 as [|x l1 IH]; simpl; intros Hs.
  - repeat split; [constructor|assumption|intros a b []].
  - inversion Hs as [|? ? Hs' Hall]; subst.
    destruct (IH Hs') as (S1 & S2 & H12).
    apply Forall_app in Hall. destruct Hall as (F1 & F2).
    repeat split; [now constructor|assumption|].
    intros a b [<-|Ha] Hb; [|now apply H12].
    rewrite Forall_forall in F2. now apply F2.
Qed.

(** X12.  The charts, which are reached when the parcel table has an
    'Assessment' column, show at most ten owners, the first ten of the
    ranking, and no owner left out of them has more properties than an owner
    shown. *)
Theorem top_10_owners_dominate `{Sorter} (raw : list ParcelRecord) :
  (List.length (top_10_owners true raw) <= 10)%nat
  /\ top_owners true raw
     = (top_10_owners true raw
        ++ skipn 10 (top_owners true raw))%list
  /\ forall shown left_out,
       In shown (top_10_owners true raw) ->
       In left_out (skipn 10 (top_owners true raw)) ->
       TotalProperties shown >= TotalProperties left_out.
Proof.
  unfold top_10_owners. split; [apply firstn_le_length|].
  split; [symmetry; apply firstn_skipn|].
  pose proof (sort_values_descending TotalProperties
                (owner_groups true (parcel_details raw))) as Hs.
  fold (top_owners true raw) in Hs.
  rewrite <- (firstn_skipn 10 (top_owners true raw)) in Hs.
  apply StronglySorted_app_inv in Hs. destruct Hs as (_ & _ & Hd).
  exact Hd.
Qed.

Lemma assessment_bars_In (data : list OwnerAggregate) (c : string) (o : OwnerAggregate) :
  In (c, o) (assessment_bars data)
  <-> exists i, nth_error data i = Some o
                /\ c = bar_color (Z.of_nat i) (Z.of_nat (List.length data)).
Proof.
  unfold assessment_bars.
  generalize (Z.of_nat (List.length data)) as n. intros n.
  assert (G : forall start,
             In (c, o) (map (fun io : nat * OwnerAggregate =>
                               (bar_color (Z.of_nat (fst io)) n, snd io))
                            (combine (seq start (List.length data)) data))
             <-> exists i, nth_error data i = Some o
                           /\ c = bar_color (Z.of_nat (start + i)) n).
  { induction data as [|x data IH]; intros start; simpl.
    - split; [tauto|]. intros ([|i] & E & _); discriminate.
    - rewrite IH. split.
      + intros [[= <- <-]|(i & E & Ec)].
        * exists O. split; [reflexivity|]. now rewrite Nat.add_0_r.
        * exists (S i). split; [exact E|]. now rewrite Nat.add_succ_r.
      + intros ([|i] & E & Ec).
        * left. injection E as ->. rewrite Nat.add_0_r in Ec. now subst.
        * right. exists i. split; [exact E|]. now rewrite Nat.add_succ_r in Ec. }
  apply (G O).
Qed.

Lemma StronglySorted_nth_error {A} (R : A -> A -> Prop) (l : list A) :
  StronglySorted R l ->
  forall i j a b, (i < j)%nat -> nth_error l i = Some a -> nth_error l j = Some b ->
                  R a b.
Proof.
  induction 1 as [|x l Hs IH Hall]; intros i j a b Hij Ha Hb.
  - destruct i; discriminate.
  - destruct j as [|j]; [lia|]. simpl in Hb.
    destruct i as [|i]; simpl in Ha.
    + injection Ha as ->. rewrite Forall_forall in Hall.
      apply Hall. eapply nth_error_In; eassumption.
    + apply (IH i j); [lia|assumption..].
Qed.

Lemma combine_seq_snd {A} (l : list A) : forall start,
  map snd (combine (seq start (List.length l)) l) = l.
Proof.
  induction l as [|x l IH]; intros start; simpl; [reflexivity|]. now rewrite IH.
Qed.

Lemma blue_bars_bound (data : list OwnerAggregate) (n : Z) : forall start,
  (List.length
     (filter (fun b : string * OwnerAggregate => String.eqb (fst b) "#1f77b4")
        (map (fun io : nat * OwnerAggregate =>
                (bar_color (Z.of_nat (fst io)) n, snd io))
             (combine (seq start (List.length data)) data)))
   <= Z.to_nat (Z.of_nat (start + List.length data)
                - Z.max (Z.of_nat start) (n - 2)))%nat.
Proof.
  induction data as [|x data IH]; intros start; [simpl; lia|].
  specialize (IH (S start)).
  cbn [List.length seq combine map filter fst snd].
  unfold bar_color at 1.
  destruct (Z.geb_spec (Z.of_nat start) (n - 2)).
  - change (String.eqb "#1f77b4" "#1f77b4") with true. cbn [List.length]. lia.
  - change (String.eqb "lightgray" "#1f77b4") with false. lia.
Qed.

(** X13.  In the assessment chart the bars are drawn in ascending order of
    total assessment, at most two of them are highlighted, and a highlighted
    bar never stands for less than a gray one: the highlighted bars are the
    largest totals among the owners shown. *)
Theorem highlighted_bars_are_largest `{Sorter} (raw : list ParcelRecord) :
  let bars := assessment_bars (assessment_data true raw) in
  map snd bars = assessment_data true raw
  /\ StronglySorted (fun a b => TotalAssessment a <= TotalAssessment b)
                    (assessment_data true raw)
  /\ (List.length (filter (fun b => String.eqb (fst b) "#1f77b4") bars) <= 2)%nat
  /\ forall gray blue,
       In ("lightgray", gray) bars -> In ("#1f77b4", blue) bars ->
       TotalAssessment gray <= TotalAssessment blue.
Proof.
  cbv zeta. set (data := assessment_data true raw).
  assert (Hs : StronglySorted (fun a b => TotalAssessment a <= TotalAssessment b) data)
    by apply sort_values_ascending.
  split; [|split; [exact Hs|split]].
  - unfold assessment_bars. rewrite map_map. simpl. apply combine_seq_snd.
  - pose proof (blue_bars_bound data (Z.of_nat (List.length data)) O) as G.
    unfold assessment_bars. simpl in G. lia.
  - intros gray blue Hg Hb.
    apply assessment_bars_In in Hg, Hb.
    destruct Hg as (i & Ei & Ci). destruct Hb as (j & Ej & Cj).
    unfold bar_color in Ci, Cj.
    destruct (Z.geb_spec (Z.of_nat i) (Z.of_nat (List.length data) - 2));
      [discriminate|].
    destruct (Z.geb_spec (Z.of_nat j) (Z.of_nat (List.length data) - 2));
      [|discriminate].
    apply (StronglySorted_nth_error _ data Hs i j); [lia|assumption..].
Qed.

(** X14.  Renaming the columns of the owners table assigns three names
    whatever the number of columns selected (the fourth name is added only
    for more than three columns, which never occurs).  So when the parcel
    table has no 'Assessment' column the renaming raises ValueError, two
    columns against three names, for every parcel table; with the column the
    table has one row per ranked owner, in ranking order. *)
Theorem display_df_columns `{Sorter} (format_dollars : Z -> string)
    (raw : list ParcelRecord) :
  display_df format_dollars false raw = inl (LengthMismatch 2 3)
  /\ display_df format_dollars true raw
     = inr {| columns := ["Owner Name"; "Properties"; "Total Assessment Value"];
              rows := map (fun o => [ CStr (oa_OwnerName o);
                                      CInt (TotalProperties o);
                                      CStr (format_dollars (TotalAssessment o)) ])
                          (top_owners true raw) |}.
Proof. split; reflexivity. Qed.

(** ** Owner city: whitespace and case (lines 787-788) *)

Lemma is_space_upper_char (c : ascii) : is_space (upper_char c) = is_space c.
Proof. destruct c as [[] [] [] [] [] [] [] []]; reflexivity. Qed.

Lemma upper_char_idem (c : ascii) : upper_char (upper_char c) = upper_char c.
Proof. destruct c as [[] [] [] [] [] [] [] []]; reflexivity. Qed.

Lemma upper_app (s t : string) : upper (s ++ t) = upper s ++ upper t.
Proof. induction s as [|c s IH]; simpl; [reflexivity|now rewrite IH]. Qed.

Lemma lstrip_upper (s : string) : lstrip (upper s) = upper (lstrip s).
Proof.
  induction s as [|c s IH]; simpl; [reflexivity|].
  rewrite is_space_upper_char. destruct (is_space c); [exact IH|reflexivity].
Qed.

Lemma rstrip_upper (s : string) : rstrip (upper s) = upper (rstrip s).
Proof.
  induction s as [|c s IH]; simpl; [reflexivity|].
  rewrite IH, is_space_upper_char.
  destruct (rstrip s); simpl; [destruct (is_space c)|]; reflexivity.
Qed.

Lemma strip_upper (s : string) : strip (upper s) = upper (strip s).
Proof. unfold strip. now rewrite lstrip_upper, rstrip_upper. Qed.

Lemma rstrip_blank (w : string) : blank w = true -> rstrip w = EmptyString.
Proof.
  unfold blank. induction w as [|c w IH]; simpl; [reflexivity|].
  intros Hw. apply andb_true_iff in Hw. destruct Hw as (Hc & Hw).
  now rewrite (IH Hw), Hc.
Qed.

Lemma rstrip_app_blank (s w : string) : blank w = true -> rstrip (s ++ w) = rstrip s.
Proof.
  intros Hw. induction s as [|c s IH]; simpl.
  - now apply rstrip_blank.
  - now rewrite IH.
Qed.

Lemma lstrip_blank (w : string) : blank w = true -> lstrip w = EmptyString.
Proof.
  unfold blank. induction w as [|c w IH]; simpl; [reflexivity|].
  intros Hw. apply andb_true_iff in Hw. destruct Hw as (Hc & Hw).
  rewrite Hc. now apply IH.
Qed.

Lemma lstrip_blank_app (w s : string) : blank w = true -> lstrip (w ++ s) = lstrip s.
Proof.
  unfold blank. induction w as [|c w IH]; simpl; [reflexivity|].
  intros Hw. apply andb_true_iff in Hw. destruct Hw as (Hc & Hw).
  rewrite Hc. now apply IH.
Qed.

Lemma strip_app_blank (s w : string) : blank w = true -> strip (s ++ w) = strip s.
Proof.
  intros Hw. unfold strip. induction s as [|c s IH]; simpl.
  - now rewrite (lstrip_blank w Hw).
  - destruct (is_space c); [exact IH|].
    change (String c (s ++ w)) with (String c s ++ w).
    now apply rstrip_app_blank.
Qed.

(** X15.  Whether an owner is local does not depend on the whitespace
    around the owner-city-state nor on its letter case: padding the text with
    whitespace on either side and changing the case of its letters leaves
    [IsLocal] unchanged. *)
Theorem IsLocal_ignores_padding_and_case (r : ParcelRecord)
    (text variant before after : string) :
  blank before = true -> blank after = true -> upper variant = upper text ->
  IsLocal (classify r (before ++ variant ++ after)) = IsLocal (classify r text).
Proof.
  intros Hb Ha Hcase. unfold classify. simpl. f_equal.
  unfold strip at 1. rewrite (lstrip_blank_app before _ Hb).
  fold (strip (variant ++ after)). rewrite (strip_app_blank variant after Ha).
  now rewrite <- !strip_upper, Hcase.
Qed.

Lemma IsLocal_ignores_padding_and_case_witness :
  IsLocal (classify (parcel_row "SMITH, JOHN" None 8712)
                    ("  " ++ "Charlottesville va" ++ " "))
  = IsLocal (classify (parcel_row "SMITH, JOHN" None 8712) "CHARLOTTESVILLE VA").
Proof.
  apply IsLocal_ignores_padding_and_case; reflexivity.
Defined.

(** ** Property search: parentheses and alternation (lines 719-722) *)

Lemma fragment_char_cases (c : ascii) :
  fragment_char c = true ->
  c = "("%char \/ c = ")"%char \/ c = "|"%char \/ c = "."%char
  \/ is_special c = false.
Proof.
  unfold fragment_char. rewrite orb_true_iff, negb_true_iff. simpl.
  intros [E|E]; [tauto|].
  repeat (apply orb_true_iff in E; destruct E as [E|E]);
    try discriminate; apply Ascii.eqb_eq in E; tauto.
Qed.

Lemma parse_from_open (s : string) (f : frame) (stack : list frame) :
  parse_from (String "("%char s) f stack
  = match s with
    | String c _ =>
        if Ascii.eqb c "?"%char then Beyond
        else if (max_nesting <=? List.length stack)%nat then Beyond
             else parse_from s empty_frame (f :: stack)
    | EmptyString =>
        if (max_nesting <=? List.length stack)%nat then Beyond
        else parse_from s empty_frame (f :: stack)
    end.
Proof.
  destruct s as [|c s]; [reflexivity|].
  destruct c as [[] [] [] [] [] [] [] []]; reflexivity.
Qed.

Lemma parse_from_fragment (s : string) : forall f stack,
  in_fragment s = true ->
  nested_within max_nesting s (List.length stack) = true ->
  if balanced s (List.length stack)
  then exists r, parse_from s f stack = Pattern r
  else parse_from s f stack = SyntaxError.
Proof.
  induction s as [|c s IH]; intros f stack Hs Hn.
  - simpl. destruct stack; simpl; eauto.
  - unfold in_fragment in Hs. simpl in Hs. apply andb_true_iff in Hs.
    destruct Hs as (Hc & Hs). fold (in_fragment s) in Hs.
    destruct (fragment_char_cases c Hc) as [->|[->|[->|[->|Hplain]]]].
    + cbn [nested_within balanced] in *.
      change (Ascii.eqb "(" "(") with true in *. cbv iota in *.
      apply andb_true_iff in Hn. destruct Hn as (Hd & Hn).
      apply Nat.ltb_lt in Hd.
      rewrite parse_from_open.
      replace (max_nesting <=? List.length stack)%nat with false
        by (symmetry; apply Nat.leb_gt; exact Hd).
      pose proof (IH empty_frame (f :: stack) Hs Hn) as G.
      destruct s as [|c' s']; [exact G|].
      destruct (Ascii.eqb_spec c' "?"%char) as [->|_]; [|exact G].
      unfold in_fragment in Hs. simpl in Hs. discriminate.
    + cbn [nested_within balanced] in *.
      change (Ascii.eqb ")" "(") with false in *.
      change (Ascii.eqb ")" ")") with true in *. cbv iota in *.
      destruct stack as [|outer stack]; [reflexivity|].
      apply (IH _ stack Hs Hn).
    + apply (IH _ stack Hs Hn).
    + apply (IH _ stack Hs Hn).
    + destruct (not_special_cases c Hplain) as (E1 & E2 & E3 & E4).
      cbn [nested_within balanced] in *. rewrite E1, E2 in *.
      simpl. rewrite E1, E2, E3, E4, Hplain. apply (IH _ stack Hs Hn).
Qed.

Lemma fragment_char_upper (c : ascii) :
  fragment_char (upper_char c) = fragment_char c.
Proof. destruct c as [[] [] [] [] [] [] [] []]; reflexivity. Qed.

Lemma paren_upper (c : ascii) :
  Ascii.eqb (upper_char c) "("%char = Ascii.eqb c "("%char
  /\ Ascii.eqb (upper_char c) ")"%char = Ascii.eqb c ")"%char.
Proof. destruct c as [[] [] [] [] [] [] [] []]; split; reflexivity. Qed.

Lemma nested_within_upper (limit : nat) (s : string) : forall depth,
  nested_within limit (upper s) depth = nested_within limit s depth.
Proof.
  induction s as [|c s IH]; intros depth; simpl; [reflexivity|].
  destruct (paren_upper c) as (-> & ->).
  destruct (Ascii.eqb c "("%char); [now rewrite IH|].
  destruct (Ascii.eqb c ")"%char); [destruct depth; [reflexivity|apply IH]|apply IH].
Qed.

Lemma in_fragment_upper (s : string) : in_fragment (upper s) = in_fragment s.
Proof.
  unfold in_fragment. induction s as [|c s IH]; simpl; [reflexivity|].
  now rewrite fragment_char_upper, IH.
Qed.

Lemma balanced_upper (s : string) : forall depth,
  balanced (upper s) depth = balanced s depth.
Proof.
  induction s as [|c s IH]; intros depth; simpl; [reflexivity|].
  destruct (paren_upper c) as (-> & ->).
  destruct (Ascii.eqb c "("%char); [apply IH|].
  destruct (Ascii.eqb c ")"%char); [destruct depth; [reflexivity|apply IH]|apply IH].
Qed.

Section SearchSyntaxFacts.
Variable re_beyond : string -> result (string -> bool).

(** X16.  For a query written with ordinary characters, dots, bars and
    parentheses, and whose groups are nested no deeper than [max_nesting],
    the search raises re.error exactly when the parentheses of the query are
    not balanced, whatever the table holds; otherwise it returns a selection
    of the table's rows in table order. *)
Theorem search_raises_on_unbalanced (search_address : string)
    (all_assessments : list AssessmentRecord) :
  in_fragment search_address = true ->
  nested_within max_nesting search_address 0 = true ->
  (matching_properties re_beyond search_address all_assessments = Raise re_error
   <-> balanced search_address 0 = false)
  /\ (balanced search_address 0 = true ->
      exists selects,
        matching_properties re_beyond search_address all_assessments
        = Ok (filter selects all_assessments)).
Proof.
  intros Hf Hn. unfold matching_properties, str_contains, re_compile, sre_parse.
  pose proof (parse_from_fragment (upper search_address) empty_frame [])
    as G. rewrite in_fragment_upper in G. specialize (G Hf).
  change (List.length (@nil frame)) with O in G.
  rewrite nested_within_upper, balanced_upper in G. specialize (G Hn).
  destruct (balanced search_address 0).
  - destruct G as (r & ->). simpl. split; [split; discriminate|].
    intros _. eexists. reflexivity.
  - rewrite G. simpl. split; [tauto|discriminate].
Qed.

Lemma parse_from_plain_app (s rest : string) : forall f stack,
  plain s = true ->
  parse_from (s ++ rest) f stack
  = parse_from rest {| alts := alts f; cur := literal_from s (cur f) |} stack.
Proof.
  induction s as [|c s IH]; intros f stack Hp.
  - destruct f; reflexivity.
  - unfold plain in Hp. simpl in Hp. apply andb_true_iff in Hp.
    destruct Hp as (Hc & Hs). apply negb_true_iff in Hc.
    destruct (not_special_cases c Hc) as (E1 & E2 & E3 & E4).
    simpl. rewrite E1, E2, E3, E4, Hc. now rewrite IH.
Qed.

Lemma re_search_Alt (r1 r2 : regex) (text : string) :
  re_search (Alt r1 r2) text = re_search r1 text || re_search r2 text.
Proof.
  induction text as [|x text IH]; simpl.
  - now rewrite !orb_false_r.
  - rewrite IH.
    destruct (match_here r1 _ _), (match_here r2 _ _),
      (re_search r1 text), (re_search r2 text); reflexivity.
Qed.

(** X17.  A bar in the query is read as "or": for two texts without special
    characters, the query [a|b] returns, in table order, the records that
    match [a] or match [b] as case-insensitive substrings. *)
Theorem search_bar_is_alternation (a b : string)
    (all_assessments : list AssessmentRecord) :
  plain a = true -> plain b = true ->
  matching_properties re_beyond (a ++ "|" ++ b) all_assessments
  = Ok (filter (fun r => matches_literally a r || matches_literally b r)
               all_assessments).
Proof.
  intros Ha Hb. unfold matching_properties, str_contains, re_compile, sre_parse.
  rewrite !upper_app.
  rewrite parse_from_plain_app by now rewrite plain_upper.
  change (upper "|" ++ upper b) with (String "|"%char (upper b)).
  cbn [parse_from Ascii.eqb Bool.eqb]. cbn [alts cur empty_frame close].
  rewrite parse_from_plain by now rewrite plain_upper.
  simpl. f_equal. apply filter_ext. intros r. unfold matches_literally, close.
  cbn [alts cur].
  rewrite !re_search_Alt, !re_search_literal.
  destruct (StreetName r); simpl; rewrite ?re_search_Alt, ?re_search_literal;
    destruct (contains_ci a (FullAddress r)), (contains_ci b (FullAddress r));
    simpl; try reflexivity;
    try (destruct (contains_ci a s), (contains_ci b s); reflexivity).
Qed.

End SearchSyntaxFacts.

Lemma search_raises_on_unbalanced_witness :
  matching_properties no_extension "(main|oak) st)" three_addresses = Raise re_error.
Proof.
  apply (proj1 (search_raises_on_unbalanced no_extension "(main|oak) st)"
                  three_addresses eq_refl eq_refl)).
  reflexivity.
Defined.

Lemma search_bar_is_alternation_witness :
  matching_properties no_extension ("oak" ++ "|" ++ "45 main") three_addresses
  = Ok (filter (fun r => matches_literally "oak" r || matches_literally "45 main" r)
               three_addresses).
Proof.
  apply (search_bar_is_alternation no_extension "oak" "45 main" three_addresses); reflexivity.
Defined.

(** ** Property lookup: the candidates and the selected parcel *)

Lemma drop_duplicates_from_NoDup (df : list (string * string)) : forall seen,
  NoDup (drop_duplicates_from seen df).
Proof.
  induction df as [|x df IH]; intros seen; simpl; [constructor|].
  destruct (existsb _ seen); [apply IH|].
  constructor; [|apply IH].
  rewrite (drop_duplicates_from_In no_extension).
  intros (_ & Hn). apply Hn. now left.
Qed.

Lemma unique_addresses_In (matching : list AssessmentRecord) (p a : string) :
  In (p, a) (unique_addresses matching)
  <-> exists r, In r matching /\ ParcelNumber r = p /\ FullAddress r = a.
Proof.
  unfold unique_addresses.
  rewrite (drop_duplicates_In no_extension), in_map_iff. split.
  - intros (r & [= <- <-] & Hr). eauto.
  - intros (r & Hr & <- & <-). eauto.
Qed.

(** X18.  The candidates offered after a search list every (parcel,
    address) pair of the matching rows exactly once. *)
Theorem unique_addresses_distinct (matching : list AssessmentRecord) :
  NoDup (unique_addresses matching)
  /\ forall p a,
       In (p, a) (unique_addresses matching)
       <-> exists r, In r matching /\ ParcelNumber r = p /\ FullAddress r = a.
Proof.
  split; [apply drop_duplicates_from_NoDup|apply unique_addresses_In].
Qed.

Lemma iloc0_filter_find {A} (f : A -> bool) (l : list A) :
  iloc0 (filter f l)
  = match find f l with Some x => Ok x | None => Raise IndexError end.
Proof.
  induction l as [|x l IH]; simpl; [reflexivity|].
  destruct (f x); [reflexivity|exact IH].
Qed.

Section LookupFacts.
Context `{Sorter}.
Variable re_beyond : string -> result (string -> bool).
Variable selectbox : list string -> string.

Lemma matching_properties_rows (search_address : string)
    (all_assessments matching : list AssessmentRecord) :
  matching_properties re_beyond search_address all_assessments = Ok matching ->
  forall r, In r matching -> In r all_assessments.
Proof.
  unfold matching_properties, str_contains.
  destruct (re_compile re_beyond (upper search_address)) as [search|e];
    simpl; [|discriminate].
  intros [= <-] r Hr. apply filter_In in Hr. tauto.
Qed.

Lemma property_lookup_selected_inv
    (search_address selected_address selected_parcel : string)
    (all_assessments property_history : list AssessmentRecord) :
  property_lookup re_beyond selectbox search_address all_assessments
  = Ok (Selected selected_address selected_parcel property_history) ->
  exists matching,
    matching_properties re_beyond search_address all_assessments = Ok matching
    /\ find (fun u => String.eqb (snd u) selected_address) (unique_addresses matching)
       = Some (selected_parcel, selected_address)
    /\ property_history = property_history_of selected_parcel all_assessments.
Proof.
  unfold property_lookup.
  destruct (String.eqb search_address EmptyString); [discriminate|].
  destruct (matching_properties re_beyond search_address all_assessments)
    as [matching|e] eqn:Em; simpl; [|discriminate].
  destruct (0 <? Z.of_nat (List.length matching)); [|discriminate].
  intros Hsel. exists matching. split; [reflexivity|].
  destruct (1 <? Z.of_nat (List.length (unique_addresses matching))).
  - rewrite iloc0_filter_find in Hsel.
    destruct (find _ (unique_addresses matching)) as [(p & a)|] eqn:Ef;
      simpl in Hsel; [|discriminate].
    injection Hsel as <- <- <-.
    apply find_some in Ef as Ea. destruct Ea as (_ & Ea).
    simpl in Ea. apply String.eqb_eq in Ea. subst a. auto.
  - destruct (unique_addresses matching) as [|(p & a) rest];
      simpl in Hsel; [discriminate|].
    injection Hsel as <- <- <-. simpl. rewrite String.eqb_refl. auto.
Qed.

Lemma selected_parcel_has_rows
    (search_address selected_address selected_parcel : string)
    (all_assessments matching : list AssessmentRecord) :
  matching_properties re_beyond search_address all_assessments = Ok matching ->
  find (fun u => String.eqb (snd u) selected_address) (unique_addresses matching)
  = Some (selected_parcel, selected_address) ->
  exists r, In r all_assessments /\ ParcelNumber r = selected_parcel.
Proof.
  intros Em Hfind. apply find_some in Hfind. destruct Hfind as (Hin & _).
  apply unique_addresses_In in Hin. destruct Hin as (r & Hr & Hp & _).
  exists r. split; [|assumption].
  exact (matching_properties_rows _ _ _ Em r Hr).
Qed.

Lemma property_history_of_In (selected_parcel : string)
    (all_assessments : list AssessmentRecord) (r : AssessmentRecord) :
  In r (property_history_of selected_parcel all_assessments)
  <-> In r all_assessments /\ ParcelNumber r = selected_parcel.
Proof.
  destruct (property_history_of_spec selected_parcel all_assessments) as (_ & P).
  split.
  - intros Hr. apply (Permutation_in _ (Permutation_sym P)) in Hr.
    apply filter_In in Hr. destruct Hr as (Hr & E).
    apply String.eqb_eq in E. auto.
  - intros (Hr & E). apply (Permutation_in _ P), filter_In.
    split; [assumption|now apply String.eqb_eq].
Qed.

(** X19.  Whenever the lookup selects a parcel, the parcel is the first
    candidate listed under the selected address (a later parcel with the same
    address cannot be reached), and the history returned is not empty and
    holds exactly the records of that parcel. *)
Theorem property_lookup_selected (search_address selected_address selected_parcel : string)
    (all_assessments property_history : list AssessmentRecord) :
  property_lookup re_beyond selectbox search_address all_assessments
  = Ok (Selected selected_address selected_parcel property_history) ->
  exists matching,
    matching_properties re_beyond search_address all_assessments = Ok matching
    /\ find (fun u => String.eqb (snd u) selected_address) (unique_addresses matching)
       = Some (selected_parcel, selected_address)
    /\ property_history <> []
    /\ forall r, In r property_history
                 <-> In r all_assessments /\ ParcelNumber r = selected_parcel.
Proof.
  intros Hsel.
  destruct (property_lookup_selected_inv _ _ _ _ _ Hsel) as (matching & Em & Hfind & ->).
  exists matching. split; [exact Em|]. split; [exact Hfind|].
  split; [|intros r; apply property_history_of_In].
  destruct (selected_parcel_has_rows _ _ _ _ _ Em Hfind) as (r & Hr & Hp).
  intros E.
  assert (Hin : In r (property_history_of selected_parcel all_assessments))
    by (apply property_history_of_In; auto).
  rewrite E in Hin. destruct Hin.
Qed.
End LookupFacts.

Lemma property_lookup_selected_witness :
  exists matching,
    matching_properties no_extension "main" assessments_db = Ok matching
    /\ find (fun u => String.eqb (snd u) "45 MAIN ST") (unique_addresses matching)
       = Some ("280114100", "45 MAIN ST")
    /\ property_history_of "280114100" assessments_db <> []
    /\ forall r, In r (property_history_of "280114100" assessments_db)
                 <-> In r assessments_db /\ ParcelNumber r = "280114100".
Proof.
  apply (property_lookup_selected no_extension second_option
           "main" "45 MAIN ST" "280114100" assessments_db
           (property_history_of "280114100" assessments_db)).
  reflexivity.
Defined.

(** ** Change since 2021 (lines 761-765) *)

Lemma num_sub_of_Z (a b : Z) : num_sub (of_Z a) (of_Z b) = of_Z (a - b).
Proof.
  unfold num_sub, of_Z, fin. f_equal.
  rewrite <- (Qred_inject_Z (a - b)). apply Qred_complete.
  unfold Qeq, Qminus, Qplus, Qopp, inject_Z. simpl. lia.
Qed.

Lemma change_since_2021_cases (property_history : list AssessmentRecord) :
  match find (fun r => TaxYear r =? 2021) property_history with
  | None => change_since_2021 property_history = Raise IndexError
  | Some baseline =>
      exists latest,
        iloc_last property_history = Ok latest
        /\ change_since_2021 property_history
           = Ok (of_Z (TotalValue latest - TotalValue baseline),
                 num_mul (num_div (of_Z (TotalValue latest - TotalValue baseline))
                                  (of_Z (TotalValue baseline)))
                         (of_Z 100))
  end.
Proof.
  unfold change_since_2021. rewrite iloc0_filter_find.
  destruct property_history as [|x h]; [reflexivity|].
  destruct (iloc_last_nonempty (x :: h)) as (latest & ->); [discriminate|].
  cbn [bind].
  destruct (find (fun r => TaxYear r =? 2021) (x :: h)) as [baseline|];
    cbn [bind]; [|reflexivity].
  exists latest. split; [reflexivity|]. now rewrite num_sub_of_Z.
Qed.

Lemma find_2021_none (property_history : list AssessmentRecord) :
  find (fun r => TaxYear r =? 2021) property_history = None
  <-> forall r, In r property_history -> TaxYear r <> 2021.
Proof.
  split.
  - intros Ef r Hr Ey. apply (find_none _ _ Ef) in Hr.
    apply Z.eqb_neq in Hr. contradiction.
  - intros Hno.
    destruct (find (fun r => TaxYear r =? 2021) property_history) as [b|] eqn:Ef;
      [|reflexivity].
    apply find_some in Ef. destruct Ef as (Hin & Ey). apply Z.eqb_eq in Ey.
    destruct (Hno b Hin Ey).
Qed.

(** X20.  Computing the change since 2021 raises IndexError exactly when
    the history has no record for 2021 (an empty history included).  When it
    has one, the change is the value of the last record of the history minus
    the value of the first 2021 record, and the percentage is that change
    over the 2021 value. *)
Theorem change_since_2021_defined (property_history : list AssessmentRecord) :
  (change_since_2021 property_history = Raise IndexError
   <-> forall r, In r property_history -> TaxYear r <> 2021)
  /\ (forall baseline,
        find (fun r => TaxYear r =? 2021) property_history = Some baseline ->
        exists latest,
          iloc_last property_history = Ok latest
          /\ change_since_2021 property_history
             = Ok (of_Z (TotalValue latest - TotalValue baseline),
                   num_mul (num_div (of_Z (TotalValue latest - TotalValue baseline))
                                    (of_Z (TotalValue baseline)))
                           (of_Z 100))).
Proof.
  pose proof (change_since_2021_cases property_history) as G.
  rewrite <- find_2021_none.
  destruct (find (fun r => TaxYear r =? 2021) property_history) as [baseline|].
  - destruct G as (latest & El & E). split.
    + rewrite E. split; discriminate.
    + intros b [= <-]. eauto.
  - split; [tauto|discriminate].
Qed.

Lemma change_since_2021_defined_witness :
  exists latest,
    iloc_last (property_history_of "280113000" assessments_db) = Ok latest
    /\ change_since_2021 (property_history_of "280113000" assessments_db)
       = Ok (of_Z (TotalValue latest - 540000),
             num_mul (num_div (of_Z (TotalValue latest - 540000)) (of_Z 540000))
                     (of_Z 100)).
Proof.
  apply (proj2 (change_since_2021_defined
                  (property_history_of "280113000" assessments_db))
           (assessment "280113000" 2021 540000 123 "MAIN ST")).
  reflexivity.
Defined.

(** X21.  A 2021 value of zero does not raise: the percentage is then an
    infinity, or NaN when the latest value is zero too. *)
Theorem change_since_2021_zero_baseline (property_history : list AssessmentRecord)
    (baseline latest : AssessmentRecord) :
  find (fun r => TaxYear r =? 2021) property_history = Some baseline ->
  iloc_last property_history = Ok latest ->
  TotalValue baseline = 0 ->
  change_since_2021 property_history
  = Ok (of_Z (TotalValue latest),
        match TotalValue latest ?= 0 with
        | Gt => PInf
        | Lt => NInf
        | Eq => NaN
        end).
Proof.
  intros Ef El E0.
  pose proof (change_since_2021_cases property_history) as G. rewrite Ef in G.
  destruct G as (latest' & El' & ->).
  rewrite El in El'. injection El' as <-.
  rewrite E0, Z.sub_0_r. f_equal. f_equal.
  unfold num_div, of_Z, Qsign. simpl.
  destruct (TotalValue latest ?= 0); reflexivity.
Qed.

Lemma change_since_2021_zero_baseline_witness :
  change_since_2021 [ assessment "330127000" 2021 0 7 "OAK AVE";
                      assessment "330127000" 2023 455000 7 "OAK AVE" ]
  = Ok (of_Z 455000, PInf).
Proof.
  apply (change_since_2021_zero_baseline
           [ assessment "330127000" 2021 0 7 "OAK AVE";
             assessment "330127000" 2023 455000 7 "OAK AVE" ]
           (assessment "330127000" 2021 0 7 "OAK AVE")
           (assessment "330127000" 2023 455000 7 "OAK AVE"));
    reflexivity.
Defined.

(** ** The panel under the search box (lines 737-769) *)

Lemma iloc_last_greatest {A} (key : A -> Z) (l : list A) (x : A) :
  StronglySorted (fun a b => key a <= key b) l -> iloc_last l = Ok x ->
  Forall (fun a => key a <= key x) l.
Proof.
  induction 1 as [|a l Hs IH Hall]; intros E; [constructor|].
  destruct l as [|b l].
  - injection E as ->. repeat constructor. lia.
  - assert (E' : iloc_last (b :: l) = Ok x) by exact E.
    constructor; [|now apply IH].
    apply iloc_last_In in E'. rewrite Forall_forall in Hall. now apply Hall.
Qed.

Section PanelFacts.
Context `{Sorter}.
Variable re_beyond : string -> result (string -> bool).
Variable selectbox : list string -> string.

(** X22.  The "Current Value" shown for a parcel is the value of one of the
    parcel's records with the greatest tax year: the last row of the history
    belongs to the parcel and no record of the parcel is more recent. *)
Theorem latest_assessment_is_most_recent (selected_parcel : string)
    (all_assessments : list AssessmentRecord) (latest_assessment : AssessmentRecord) :
  iloc_last (property_history_of selected_parcel all_assessments)
  = Ok latest_assessment ->
  In latest_assessment all_assessments
  /\ ParcelNumber latest_assessment = selected_parcel
  /\ forall r, In r all_assessments -> ParcelNumber r = selected_parcel ->
               TaxYear r <= TaxYear latest_assessment.
Proof.
  intros El.
  pose proof (iloc_last_In _ _ El) as Hin.
  apply property_history_of_In in Hin. destruct Hin as (Hin & Hp).
  split; [exact Hin|]. split; [exact Hp|].
  intros r Hr Hrp.
  destruct (property_history_of_spec selected_parcel all_assessments) as (Hs & _).
  pose proof (iloc_last_greatest TaxYear _ _ Hs El) as Hmax.
  rewrite Forall_forall in Hmax. apply Hmax.
  apply property_history_of_In. auto.
Qed.

(** X23.  Once the lookup has selected a parcel, the panel is always drawn
    (the history is never empty), and it raises IndexError exactly when the
    selected parcel has no assessment record for 2021; otherwise it shows the
    two change figures. *)
Theorem property_panel_outcome (search_address selected_address selected_parcel : string)
    (all_assessments property_history : list AssessmentRecord) :
  property_lookup re_beyond selectbox search_address all_assessments
  = Ok (Selected selected_address selected_parcel property_history) ->
  (property_panel re_beyond selectbox search_address all_assessments
   = Raise IndexError
   <-> forall r, In r all_assessments -> ParcelNumber r = selected_parcel ->
                 TaxYear r <> 2021)
  /\ ((exists r, In r all_assessments /\ ParcelNumber r = selected_parcel
                 /\ TaxYear r = 2021) ->
      exists change,
        property_panel re_beyond selectbox search_address all_assessments
        = Ok (Selected selected_address selected_parcel property_history,
              Some change)).
Proof.
  intros Hsel.
  destruct (property_lookup_selected_inv _ _ _ _ _ _ _ Hsel)
    as (matching & Em & Hfind & Eh).
  destruct (selected_parcel_has_rows _ _ _ _ _ _ Em Hfind) as (r0 & Hr0 & Hp0).
  assert (Hne : (0 <? Z.of_nat (List.length property_history)) = true).
  { apply Z.ltb_lt.
    assert (Hin : In r0 property_history)
      by (rewrite Eh; apply property_history_of_In; auto).
    destruct property_history; [destruct Hin|simpl; lia]. }
  assert (Hno : find (fun r => TaxYear r =? 2021) property_history = None
                <-> forall r, In r all_assessments ->
                              ParcelNumber r = selected_parcel -> TaxYear r <> 2021).
  { rewrite find_2021_none, Eh. split.
    - intros Hh r Hr Hp. apply Hh. apply property_history_of_In. auto.
    - intros Ha r Hr. apply property_history_of_In in Hr. destruct Hr. auto. }
  unfold property_panel. rewrite Hsel. cbn [bind]. rewrite Hne.
  pose proof (change_since_2021_cases property_history) as G.
  destruct (find (fun r => TaxYear r =? 2021) property_history) as [baseline|].
  - destruct G as (latest & _ & ->). cbn [bind]. split.
    + split; [discriminate|]. intros Ha.
      discriminate (proj2 Hno Ha).
    + intros _. eexists. reflexivity.
  - rewrite G. cbn [bind]. split.
    + split; [intros _; now apply Hno|reflexivity].
    + intros (r & Hr & Hp & Ey). exfalso.
      exact (proj1 Hno eq_refl r Hr Hp Ey).
Qed.
End PanelFacts.

Lemma latest_assessment_is_most_recent_witness :
  In (assessment "280113000" 2023 612000 123 "MAIN ST") assessments_db
  /\ ParcelNumber (assessment "280113000" 2023 612000 123 "MAIN ST") = "280113000"
  /\ forall r, In r assessments_db -> ParcelNumber r = "280113000" ->
               TaxYear r <= TaxYear (assessment "280113000" 2023 612000 123 "MAIN ST").
Proof.
  apply (latest_assessment_is_most_recent "280113000" assessments_db).
  reflexivity.
Defined.

Lemma property_panel_outcome_witness :
  property_panel no_extension first_option "oak" assessments_db = Raise IndexError.
Proof.
  apply (proj1 (property_panel_outcome no_extension first_option
                  "oak" "7 OAK AVE" "330127000" assessments_db
                  (property_history_of "330127000" assessments_db) eq_refl)).
  intros r [<-|[<-|[<-|[<-|[<-|[<-|[<-|[]]]]]]]]; simpl; intros; try lia; congruence.
Defined.

(** ** The frame with the income columns (lines 215-232) *)

Lemma value_of_year_through_map {R S} (g : S -> R) (year_of : R -> Z)
    (value_of : R -> num) (df : list S) (y : Z) :
  value_of_year (fun r => year_of (g r)) (fun r => value_of (g r)) df y
  = value_of_year year_of value_of (map g df) y.
Proof.
  unfold value_of_year. rewrite (filter_map_swap (fun r => year_of r =? y) g).
  rewrite length_map.
  destruct (filter (fun a => year_of (g a) =? y) df); reflexivity.
Qed.

Lemma yearly_stats_income_stat (sales_processed : list SaleRecord) :
  map stat (yearly_stats_income sales_processed) = yearly_stats sales_processed.
Proof.
  unfold yearly_stats_income. rewrite map_map. simpl.
  unfold merge_left.
  rewrite (flat_map_singletons _
             (fun r => (r, quantile_75
                             (map SaleAmount
                                (filter (fun s => Year s =? ys_Year r) sales_processed))))).
  - rewrite map_map. simpl. apply map_id.
  - intros r Hr. rewrite yearly_stats_as_map in Hr.
    apply in_map_iff in Hr. destruct Hr as (y & <- & Hy).
    apply filter_In in Hy. destruct Hy as (Hy & _). simpl.
    rewrite percentile_75_as_map.
    rewrite (filter_year_map fst _ y (group_keys by_Year sales_processed));
      [|apply group_keys_NoDup|reflexivity].
    rewrite (proj2 (existsb_eqb_In y _) Hy). reflexivity.
Qed.

(** X24.  Adding the percentile and income columns neither adds nor drops
    a year: the frame with the income columns has the rows of [yearly_stats]
    in the same order, so the 2020-to-2024 increase read from it uses the
    very median prices that the lookup on [yearly_stats] gives. *)
Theorem recent_increase_same_prices (sales_processed : list SaleRecord) :
  map stat (yearly_stats_income sales_processed) = yearly_stats sales_processed
  /\ recent_increase sales_processed
     = (price_2020 <- price_of_year sales_processed 2020 ;;
        price_2024 <- price_of_year sales_processed 2024 ;;
        Ok (pct_increase price_2024 price_2020)).
Proof.
  split; [apply yearly_stats_income_stat|].
  unfold recent_increase, price_of_year. cbv zeta.
  rewrite !(value_of_year_through_map stat ys_Year MedianPrice).
  now rewrite yearly_stats_income_stat.
Qed.

(** ** Worked inputs for the owner charts *)

Lemma top_10_owners_dominate_witness :
  TotalProperties (owner_total "A" 2 7500 800000)
  >= TotalProperties (owner_total "K" 1 4000 310000).
Proof.
  apply (proj2 (proj2 (top_10_owners_dominate eleven_owners))
           (owner_total "A" 2 7500 800000) (owner_total "K" 1 4000 310000)).
  - left. reflexivity.
  - left. reflexivity.
Defined.

Lemma highlighted_bars_are_largest_witness :
  TotalAssessment (owner_total "A" 2 7500 800000)
  <= TotalAssessment (owner_total "J" 1 7700 860000).
Proof.
  apply (proj2 (proj2 (proj2 (highlighted_bars_are_largest eleven_owners)))
           (owner_total "A" 2 7500 800000) (owner_total "J" 1 7700 860000)).
  - do 7 right. left. reflexivity.
  - do 8 right. left. reflexivity.
Defined.

Example owner_charts_run :
  map oa_OwnerName (top_10_owners true eleven_owners)
  = [ "A"; "B"; "C"; "D"; "E"; "F"; "G"; "H"; "I"; "J" ]
  /\ map (fun b => (fst b, oa_OwnerName (snd b)))
         (assessment_bars (assessment_data true eleven_owners))
     = [ ("lightgray", "B"); ("lightgray", "I"); ("lightgray", "G");
         ("lightgray", "D"); ("lightgray", "F"); ("lightgray", "E");
         ("lightgray", "H"); ("lightgray", "A");
         ("#1f77b4", "J"); ("#1f77b4", "C") ].
Proof. split; reflexivity. Qed.
